(** * Airbolt integration: API client, Tracker registry and refresh coordinator

    A shallow embedding of
      - airbolt_api/classes.py  (the records of the vendor API),
      - airbolt_api/client.py   (AirboltClient),
      - hub.py                  (Tracker, AirboltCoordinator, Hub),
    followed by the properties of the specification that concern them.

    Python classes become modules holding a record [t] and the methods as
    functions on it; code with effects lives in the monad [M] below, whose
    state survives a raised exception, as a mutated Python object does. *)

From Stdlib Require Import ZArith String List SpecFloat Lia.
From stdpp Require Import base option list gmap strings pretty.

Local Open Scope Z_scope.
Local Open Scope string_scope.

(** ** Exceptions

    The subclasses of Python's [Exception] that the code raises, catches or
    can receive from its libraries.  [ClientResponseError] is what aiohttp's
    [ClientResponse.raise_for_status] raises; [HTTPClientError] is the class
    [aiohttp.web.HTTPClientError] that hub.py imports, the server-side family
    of 4xx responses, which is no superclass of [ClientResponseError]. *)
Inductive exn : Type :=
| ClientResponseError (status : Z)
| ClientConnectionError
| HTTPClientError (status : Z)
| ValidationError
| AttributeError (attr : string)
| KeyError (key : string)
| IndexError
| ValueError
| JSONDecodeError
| OverflowError
| UnboundLocalError (var : string)
| TimeoutError
| MissingDataError
| InvalidCredentials (cause : exn)
| UpdateFailed (msg : string) (cause : exn).

Inductive result (A : Type) : Type :=
| Ok (a : A)
| Err (e : exn).
Arguments Ok {A} a.
Arguments Err {A} e.

(** ** The effect monad

    A computation over a state [S] either does not return ([None]: the
    recursion of the client never bottoms out) or returns a value or an
    exception together with the state it left behind. *)
Definition M (S A : Type) : Type := S -> option (result A * S).

Definition ret {S A} (a : A) : M S A := fun s => Some (Ok a, s).

Definition raise {S A} (e : exn) : M S A := fun s => Some (Err e, s).

Definition diverge {S A} : M S A := fun _ => None.

Definition bind {S A B} (m : M S A) (k : A -> M S B) : M S B :=
  fun s =>
    match m s with
    | None => None
    | Some (Ok a, s') => k a s'
    | Some (Err e, s') => Some (Err e, s')
    end.

Definition gets {S A} (f : S -> A) : M S A := fun s => Some (Ok (f s), s).

Definition modify {S} (f : S -> S) : M S unit := fun s => Some (Ok tt, f s).

(** [try: m except Exception as exc: h exc] *)
Definition try_except {S A} (m : M S A) (h : exn -> M S A) : M S A :=
  fun s =>
    match m s with
    | None => None
    | Some (Ok a, s') => Some (Ok a, s')
    | Some (Err e, s') => h e s'
    end.

(** Running a computation of a component on its part of a larger state. *)
Definition zoom {S T A} (get : T -> S) (set : S -> T -> T) (m : M S A) : M T A :=
  fun t =>
    match m (get t) with
    | None => None
    | Some (r, s') => Some (r, set s' t)
    end.

(** [for x in xs: body], where the body updates the local variable [acc]. *)
Fixpoint for_fold {S A B} (xs : list A) (acc : B) (body : A -> B -> M S B) : M S B :=
  match xs with
  | [] => ret acc
  | x :: xs' => bind (body x acc) (fun acc' => for_fold xs' acc' body)
  end.

(** [for x in xs: body x] *)
Definition for_each {S A} (xs : list A) (body : A -> M S unit) : M S unit :=
  for_fold xs tt (fun x _ => body x).

Declare Scope monad_scope.
Delimit Scope monad_scope with monad.
Notation "x <- c ;; k" := (bind c (fun x => k))
  (at level 100, c at next level, right associativity) : monad_scope.
Notation "c ;;; k" := (bind c (fun _ => k))
  (at level 100, right associativity) : monad_scope.
Local Open Scope monad_scope.

(** [opt] when it is there, the exception otherwise. *)
Definition from_option {S A} (e : exn) (o : option A) : M S A :=
  match o with
  | Some a => ret a
  | None => raise e
  end.

(** The outcome of a call that does not touch the state. *)
Definition from_result {S A} (r : result A) : M S A := fun s => Some (r, s).

(** ** Python values *)

(** A timezone-aware [datetime]; [==] compares the instant, here in
    microseconds since the epoch. *)
Definition datetime : Type := Z.

(** A Python [float] is a binary64 value. *)
Definition float : Type := spec_float.

(** Truth value of a float: false exactly for the two zeros (NaN is true). *)
Definition float_truthy (x : float) : bool :=
  match x with
  | S754_zero _ => false
  | _ => true
  end.

(** [int(x)] of a float: truncation toward zero; NaN and the infinities
    have no integer value. *)
Definition int_of_float (x : float) : result Z :=
  match x with
  | S754_zero _ => Ok 0
  | S754_infinity _ => Err OverflowError
  | S754_nan => Err ValueError
  | S754_finite s m e =>
      let magnitude := Z.shiftl (Z.pos m) e in
      Ok (if s then - magnitude else magnitude)
  end.

(** Iterating over [set(xs)] for a list of strings yields each string of
    [xs] once.  The order follows the hashes of the strings, which Python
    randomises per process, so it is a parameter with these two laws. *)
Record SetOrder : Type := {
  set_iter : list string -> list string;
  set_iter_NoDup : forall xs, NoDup (set_iter xs);
  set_iter_elem : forall xs x, x ∈ set_iter xs <-> x ∈ xs
}.

(** ** airbolt_api/classes.py *)

Inductive ReportType : Type := Motion | SOS | Schedule | Location.

Definition ReportType_str (r : ReportType) : string :=
  match r with
  | Motion => "Motion"
  | SOS => "SOS"
  | Schedule => "Schedule"
  | Location => "Location"
  end.

Inductive EntryType : Type := gps | mcell | scell.

Module SessionInfo.
Record t : Type := mk {
  id : string;
  user_id : string;
  key : string;
  time : datetime;
  created_at : datetime;
  updated_at : datetime;
  v : Z
}.
End SessionInfo.

Module UserInfo.
Record t : Type := mk {
  id : string;
  username : string;
  time_created : datetime;
  name : string;
  email : string;
  roles : list string;
  failed_login_attempts : Z;
  two_factor_enabled : bool;
  profile_picture : string;
  blocked_until : option string;
  country : string;
  currency : string;
  timezone : string;
  deleted : bool;
  cell_scan_limit : Z
}.
End UserInfo.

(** [LoginResult] extends [UserInfo]; the fields of both, flattened. *)
Module LoginResult.
Record t : Type := mk {
  id : string;
  username : string;
  time_created : datetime;
  name : string;
  email : string;
  roles : list string;
  failed_login_attempts : Z;
  two_factor_enabled : bool;
  profile_picture : string;
  blocked_until : option string;
  country : string;
  currency : string;
  timezone : string;
  deleted : bool;
  cell_scan_limit : Z;
  session : SessionInfo.t;
  auth_header : string
}.
End LoginResult.

(** The fields of a discovered device that are scalars; the three
    configuration blocks and the notification settings are read by no code
    of the repository. *)
Module FoundDevice.
Record t : Type := mk {
  id : string;
  device_type : string;
  latitude : float;
  longitude : float;
  alert_level : Z;
  last_history_time : datetime;
  mark_as_lost : Z;
  tone : Z;
  deleted : bool;
  color : option string;
  modem_voltage : Z;
  modem_temperature : Z;
  modem_state : Z;
  device_uuid : string;
  device_picture : string;
  name : string;
  time_created : datetime;
  last_seen_time : datetime;
  last_report_type : ReportType
}.
End FoundDevice.

Module HistoryEntry.
Record t : Type := mk {
  id : string;
  device_uuid : string;
  modem_voltage : option Z;
  modem_temperature : option Z;
  type : EntryType;
  time_created : datetime;
  latitude : float;
  longitude : float;
  accuracy : float;
  location_changed : bool;
  duration : Z;
  alert_type : ReportType;
  address : string;
  last_seen_on : datetime
}.
End HistoryEntry.

Module Pagination.
Record t : Type := mk {
  total : Z;
  total_pages : Z;
  next : Z;
  has_next : bool;
  prev : Z;
  has_prev : bool;
  per_page : Z;
  current : Z
}.
End Pagination.

Module DeviceHistoryPage.
Record t : Type := mk {
  success : bool;
  data : list HistoryEntry.t;
  pagination : Pagination.t
}.
End DeviceHistoryPage.

(** The host's [DeviceInfo], a dict of which the Tracker sets four keys;
    a key left out is [None]. *)
Module DeviceInfo.
Record t : Type := mk {
  identifiers : gset (string * string);
  manufacturer : option string;
  name : option string;
  model : option string
}.
End DeviceInfo.

(** ** hub.py: class Tracker *)
Module Tracker.

Record t : Type := mk {
  _id : string;
  _name : string;
  _model : string;
  _last_report : option HistoryEntry.t
}.

Definition set_name_model (self : t) (name model : string) : t :=
  {| _id := _id self; _name := name; _model := model;
     _last_report := _last_report self |}.

Definition set_last_report (self : t) (r : option HistoryEntry.t) : t :=
  {| _id := _id self; _name := _name self; _model := _model self;
     _last_report := r |}.

(** [update_device]: the new object and the returned boolean. *)
Definition update_device (self : t) (discovered_info : FoundDevice.t) : t * bool :=
  if bool_decide (_name self = FoundDevice.name discovered_info)
     && bool_decide (_model self = FoundDevice.device_type discovered_info)
  then (self, false)
  else (set_name_model self (FoundDevice.name discovered_info)
                       (FoundDevice.device_type discovered_info), true).

Definition __init__ (discovered_info : FoundDevice.t) : t :=
  fst (update_device
         {| _id := FoundDevice.device_uuid discovered_info;
            _name := ""; _model := ""; _last_report := None |}
         discovered_info).

Definition id (self : t) : string := _id self.

Definition name (self : t) : string := _name self.

(** The guard [if not self._last_report: raise MissingDataError()] shared
    by the seven properties below: a HistoryEntry object is always true,
    so the test fails exactly on [None]. *)
Definition last_report_or_raise (self : t) : result HistoryEntry.t :=
  match _last_report self with
  | None => Err MissingDataError
  | Some r => Ok r
  end.

Definition latitude (self : t) : result float :=
  match last_report_or_raise self with
  | Err e => Err e
  | Ok r => Ok (HistoryEntry.latitude r)
  end.

Definition longitude (self : t) : result float :=
  match last_report_or_raise self with
  | Err e => Err e
  | Ok r => Ok (HistoryEntry.longitude r)
  end.

(** [int(self._last_report.accuracy or 10000)] *)
Definition accuracy (self : t) : result Z :=
  match last_report_or_raise self with
  | Err e => Err e
  | Ok r =>
      if float_truthy (HistoryEntry.accuracy r)
      then int_of_float (HistoryEntry.accuracy r)
      else Ok 10000
  end.

Definition address (self : t) : result string :=
  match last_report_or_raise self with
  | Err e => Err e
  | Ok r => Ok (HistoryEntry.address r)
  end.

Definition alert_type (self : t) : result string :=
  match last_report_or_raise self with
  | Err e => Err e
  | Ok r => Ok (ReportType_str (HistoryEntry.alert_type r))
  end.

Definition last_report_time (self : t) : result datetime :=
  match last_report_or_raise self with
  | Err e => Err e
  | Ok r => Ok (HistoryEntry.time_created r)
  end.

Definition modem_temperature (self : t) : result (option Z) :=
  match last_report_or_raise self with
  | Err e => Err e
  | Ok r => Ok (HistoryEntry.modem_temperature r)
  end.

(** [update_location]: the new object and the returned boolean.  The
    arguments of the debug log line ([self.latitude], [self.longitude])
    are read after the assignment, when a report is present, so they do
    not raise. *)
Definition update_location (self : t) (history_entry : HistoryEntry.t) : t * bool :=
  match _last_report self with
  | Some r =>
      if bool_decide (HistoryEntry.time_created r
                      = HistoryEntry.time_created history_entry)
      then (self, false)
      else (set_last_report self (Some history_entry), true)
  | None => (set_last_report self (Some history_entry), true)
  end.

(** The callables of the class that take a history entry, by attribute
    name.  The class defines [update_device] (on a FoundDevice) and
    [update_location]; it has no base class and no [__getattr__], so any
    other name is an AttributeError. *)
Definition entry_method (attr : string)
  : option (t -> HistoryEntry.t -> t * bool) :=
  if bool_decide (attr = "update_location") then Some update_location
  else None.

(** [build_device_info]; [DOMAIN] is the constant of const.py. *)
Definition build_device_info (DOMAIN : string) (self : t) (parent : bool)
  : DeviceInfo.t :=
  if parent
  then {| DeviceInfo.identifiers := {[(DOMAIN, _id self)]};
          DeviceInfo.manufacturer := Some "Airbolt";
          DeviceInfo.name := Some (name self);
          DeviceInfo.model := Some (_model self) |}
  else {| DeviceInfo.identifiers := {[(DOMAIN, _id self)]};
          DeviceInfo.manufacturer := Some "Airbolt";
          DeviceInfo.name := None;
          DeviceInfo.model := None |}.

End Tracker.

(** ** airbolt_api/client.py: class AirboltClient *)
Module AirboltClient.

Definition BASE_URL : string := "https://airboltapiconnect.com/api/".

Inductive Method : Type := GET | POST.

Record Request : Type := mkRequest {
  method : Method;
  url : string;
  json : list (string * string);
  request_headers : gmap string string
}.

Record Response : Type := mkResponse {
  status : Z;
  text : string
}.

(** What the process did to the outside: requests sent, time slept. *)
Inductive Event : Type :=
| Sent (r : Request)
| Slept (seconds : Z).

(** The remote end either answers or the transport fails. *)
Inductive Reply : Type :=
| Responds (r : Response)
| Fails (e : exn).

(** The client object with the remote end behind its session.  The
    attributes [_login_result], [_username] and [_password] are only
    declared by the class: they are unset until [login] assigns them. *)
Record t : Type := mk {
  session_headers : gmap string string;
  _login_result : option LoginResult.t;
  _username : option string;
  _password : option string;
  server : list Event -> Request -> Reply;
  trace : list Event
}.

Definition log_event (ev : Event) (self : t) : t :=
  {| session_headers := session_headers self;
     _login_result := _login_result self;
     _username := _username self;
     _password := _password self;
     server := server self;
     trace := trace self ++ [ev] |}.

Definition set_credentials (username password : string) (self : t) : t :=
  {| session_headers := session_headers self;
     _login_result := _login_result self;
     _username := Some username;
     _password := Some password;
     server := server self;
     trace := trace self |}.

Definition set_login_result (r : LoginResult.t) (self : t) : t :=
  {| session_headers := session_headers self;
     _login_result := Some r;
     _username := _username self;
     _password := _password self;
     server := server self;
     trace := trace self |}.

(** [self._session.headers.update(d)] *)
Definition headers_update (d : list (string * string)) (self : t) : t :=
  {| session_headers :=
       fold_left (fun h kv => <[fst kv := snd kv]> h) d (session_headers self);
     _login_result := _login_result self;
     _username := _username self;
     _password := _password self;
     server := server self;
     trace := trace self |}.

(** [AirboltClient()] talking to the given remote end. *)
Definition __init__ (remote : list Event -> Request -> Reply) : t :=
  headers_update
    [("Accept", "application/json");
     ("Authorization", "");
     ("Content-Type", "application/json; charset=utf-8")]
    {| session_headers := ∅; _login_result := None; _username := None;
       _password := None; server := remote; trace := [] |}.

(** [await self._session.get(url)] and [await self._session.post(url, json=body)] *)
Definition session_request (m : Method) (u : string) (body : list (string * string))
  : M t Response :=
  fun self =>
    let req := {| method := m; url := u; json := body;
                  request_headers := session_headers self |} in
    match server self (trace self) req with
    | Responds r => Some (Ok r, log_event (Sent req) self)
    | Fails e => Some (Err e, log_event (Sent req) self)
    end.

(** [await asyncio.sleep(seconds)] *)
Definition sleep (seconds : Z) : M t unit := modify (log_event (Slept seconds)).

(** [response.raise_for_status()]: aiohttp raises for a status of 400 and
    above and does nothing below. *)
Definition raise_for_status (response : Response) : M t unit :=
  if (400 <=? status response)%Z then raise (ClientResponseError (status response))
  else ret tt.

Section Parsers.

(** [urllib.parse.urljoin]: the resolution of a reference against a base
    URL.  It is library code, and the client hands it paths built from
    strings the remote end chose (an account id, a device uuid), so
    nothing is assumed of it. *)
Variable urljoin : string -> string -> string.

(** [Model.parse_raw] of pydantic on a response body: the validated
    object, or [None] where it raises ValidationError (a body that is no
    JSON included). *)
Variable parse_LoginResult : string -> option LoginResult.t.
Variable parse_DeviceHistoryPage : string -> option DeviceHistoryPage.t.

(** [parse_raw_as(list[FoundDevice], raw)] of pydantic: the validated
    list, or the exception it raises, which is the JSON decoder's own
    error for a body that is no JSON and ValidationError for JSON of
    another shape. *)
Variable parse_FoundDevices : string -> result (list FoundDevice.t).

(** The body of [_reauthenticate], over the [_post] it calls. *)
Definition _reauthenticate_with (post : string -> list (string * string) -> M t string)
  : M t LoginResult.t :=
  username <- bind (gets _username) (from_option (AttributeError "_username")) ;;
  password <- bind (gets _password) (from_option (AttributeError "_password")) ;;
  raw_response <- post "login"
                    [("username", username);
                     ("password", password);
                     ("twoFactorCode", "")] ;;
  login_result <- from_option ValidationError (parse_LoginResult raw_response) ;;
  modify (set_login_result login_result) ;;;
  modify (headers_update
            [("Accept", "application/json");
             ("Authorization", LoginResult.auth_header login_result)]) ;;;
  ret login_result.

(** [_post]: the state of its [while retry:] loop is [retry] and the
    last [response]; one unit of fuel per iteration, the rest of it
    handed to the nested [_reauthenticate]. *)
Fixpoint _post_loop (fuel : nat) (path : string) (body : list (string * string))
         (retry : bool) (response : option Response) {struct fuel} : M t string :=
  if retry then
    match fuel with
    | O => diverge
    | S fuel' =>
        response <- session_request POST (urljoin BASE_URL path) body ;;
        if (status response =? 200)%Z then ret (text response)
        else
          let retry := false in
          let retry := false in
          if (status response =? 401)%Z then
            sleep 500 ;;;
            _ <- _reauthenticate_with
                   (fun p b => _post_loop fuel' p b true None) ;;
            (* continue *)
            _post_loop fuel' path body retry (Some response)
          else
            _post_loop fuel' path body retry (Some response)
    end
  else
    response <- from_option (UnboundLocalError "response") response ;;
    raise_for_status response ;;;
    ret "".

Definition _post (fuel : nat) (path : string) (body : list (string * string))
  : M t string :=
  _post_loop fuel path body true None.

Definition _reauthenticate (fuel : nat) : M t LoginResult.t :=
  _reauthenticate_with (_post fuel).

(** [_get]: the same loop without the [continue]. *)
Fixpoint _get_loop (fuel : nat) (path : string)
         (retry : bool) (response : option Response) {struct fuel} : M t string :=
  if retry then
    match fuel with
    | O => diverge
    | S fuel' =>
        response <- session_request GET (urljoin BASE_URL path) [] ;;
        if (status response =? 200)%Z then ret (text response)
        else
          let retry := false in
          (if (status response =? 401)%Z then
             sleep 500 ;;;
             _ <- _reauthenticate fuel' ;;
             ret tt
           else ret tt) ;;;
          _get_loop fuel' path retry (Some response)
    end
  else
    response <- from_option (UnboundLocalError "response") response ;;
    raise_for_status response ;;;
    ret "".

Definition _get (fuel : nat) (path : string) : M t string :=
  _get_loop fuel path true None.

Definition login (fuel : nat) (username password : string) : M t LoginResult.t :=
  modify (set_credentials username password) ;;;
  _reauthenticate fuel.

Definition find_devices (fuel : nat) : M t (list FoundDevice.t) :=
  login_result <- bind (gets _login_result)
                    (from_option (AttributeError "_login_result")) ;;
  raw_data <- _get fuel ("devices/find/" +:+ LoginResult.id login_result
                         +:+ "?page=0&perPage=999") ;;
  from_result (parse_FoundDevices raw_data).

Definition get_device_history_page (fuel : nat) (device_uuid : string)
           (page page_size : Z) : M t DeviceHistoryPage.t :=
  raw_data <- _get fuel ("history/find/device/" +:+ device_uuid
                         +:+ "?page=" +:+ pretty page
                         +:+ "&perPage=" +:+ pretty page_size) ;;
  from_option ValidationError (parse_DeviceHistoryPage raw_data).

Variable parse_UserInfo : string -> option UserInfo.t.

Definition get_user_info (fuel : nat) : M t UserInfo.t :=
  raw_data <- _get fuel "users/me" ;;
  from_option ValidationError (parse_UserInfo raw_data).

End Parsers.

End AirboltClient.

(** ** The client as the hub sees it

    The hub and its coordinator await three methods of their client and
    depend on nothing else of it. *)
Class ClientAPI (C : Type) : Type := {
  client_login : string -> string -> M C LoginResult.t;
  client_find_devices : M C (list FoundDevice.t);
  client_get_device_history_page : string -> Z -> Z -> M C DeviceHistoryPage.t
}.

(** The AirboltClient of client.py is one, for each amount of fuel. *)
Definition AirboltClient_API
    (urljoin : string -> string -> string)
    (parse_LoginResult : string -> option LoginResult.t)
    (parse_FoundDevices : string -> result (list FoundDevice.t))
    (parse_DeviceHistoryPage : string -> option DeviceHistoryPage.t)
    (fuel : nat) : ClientAPI AirboltClient.t :=
  {| client_login := AirboltClient.login urljoin parse_LoginResult fuel;
     client_find_devices :=
       AirboltClient.find_devices urljoin parse_LoginResult parse_FoundDevices fuel;
     client_get_device_history_page :=
       AirboltClient.get_device_history_page urljoin
         parse_LoginResult parse_DeviceHistoryPage fuel |}.

(** A client that also keeps the list of the methods awaited on it. *)
Inductive ClientCall : Type :=
| CallLogin (username password : string)
| CallFindDevices
| CallGetDeviceHistoryPage (device_uuid : string) (page page_size : Z).

Definition logging {C A} (call : ClientCall) (m : M C A) : M (C * list ClientCall) A :=
  fun st =>
    match m (fst st) with
    | None => None
    | Some (r, c') => Some (r, (c', (snd st ++ [call])%list))
    end.

Definition logged {C} (api : ClientAPI C) : ClientAPI (C * list ClientCall) :=
  {| client_login := fun u p => logging (CallLogin u p) (@client_login C api u p);
     client_find_devices := logging CallFindDevices (@client_find_devices C api);
     client_get_device_history_page := fun d p n =>
       logging (CallGetDeviceHistoryPage d p n)
               (@client_get_device_history_page C api d p n) |}.

(** ** hub.py: class Hub *)
Module Hub.

Record t (C : Type) : Type := mk {
  _client : C;
  _user : option LoginResult.t;
  _devices : gmap string Tracker.t
}.
Arguments mk {C}.
Arguments _client {C}.
Arguments _user {C}.
Arguments _devices {C}.

Definition set_client {C} (c : C) (self : t C) : t C :=
  {| _client := c; _user := _user self; _devices := _devices self |}.

Definition set_user {C} (u : LoginResult.t) (self : t C) : t C :=
  {| _client := _client self; _user := Some u; _devices := _devices self |}.

(** [self._devices[key] = tracker] *)
Definition set_device {C} (key : string) (tracker : Tracker.t) (self : t C) : t C :=
  {| _client := _client self; _user := _user self;
     _devices := <[key := tracker]> (_devices self) |}.

(** The hub with another registry; only statements use it. *)
Definition with_devices {C} (devices : gmap string Tracker.t) (self : t C) : t C :=
  {| _client := _client self; _user := _user self; _devices := devices |}.

Section WithClient.
Context {C : Type} {api : ClientAPI C}.

(** [await self._client.method(...)] *)
Definition await_client {A} (m : M C A) : M (t C) A :=
  zoom _client set_client m.

(** [except HTTPClientError as client_error] matches that class only. *)
Definition _login (username password : string) : M (t C) unit :=
  try_except
    (user <- await_client (client_login username password) ;;
     modify (set_user user))
    (fun exc =>
       match exc with
       | HTTPClientError _ => raise (InvalidCredentials exc)
       | _ => raise exc
       end).

Definition verify_credentials (username password : string) : M (t C) unit :=
  _login username password.

(** The body of the loop of [start] for one discovered device. *)
Definition start_device (discovered_device : FoundDevice.t) : M (t C) unit :=
  device_history <- await_client
                      (client_get_device_history_page
                         (FoundDevice.device_uuid discovered_device) 1 1) ;;
  last_position <-
    (if DeviceHistoryPage.success device_history
     then entry <- from_option IndexError
                     (DeviceHistoryPage.data device_history !! 0%nat) ;;
          ret (Some entry)
     else ret None) ;;
  let known_device := Tracker.__init__ discovered_device in
  let known_device :=
    match last_position with
    | Some p => fst (Tracker.update_location known_device p)
    | None => known_device
    end in
  modify (set_device (Tracker.id known_device) known_device).

Definition start (username password : string) : M (t C) unit :=
  _login username password ;;;
  discovered <- await_client client_find_devices ;;
  for_each discovered start_device.

Definition devices : M (t C) (gmap string Tracker.t) := gets _devices.

End WithClient.

(** The properties [hub_id] and [name]; [_user] is unset before a login. *)
Definition hub_id {C} (self : t C) : result string :=
  match _user self with
  | None => Err (AttributeError "_user")
  | Some user => Ok (LoginResult.id user)
  end.

Definition name {C} (self : t C) : result string :=
  match _user self with
  | None => Err (AttributeError "_user")
  | Some user =>
      Ok (LoginResult.name user +:+ " (" +:+ LoginResult.username user +:+ ")")
  end.

End Hub.

(** ** hub.py: class AirboltCoordinator *)
Module AirboltCoordinator.

(** [coordinator_data[tracker_id][key] = value] on the
    [defaultdict(dict)]: a missing inner dict is created first. *)
Definition record_change (tracker_id key : string) (value : bool)
           (coordinator_data : gmap string (gmap string bool))
  : gmap string (gmap string bool) :=
  <[tracker_id := <[key := value]> (default ∅ (coordinator_data !! tracker_id))]>
    coordinator_data.

Section WithClient.
Context {C : Type} {api : ClientAPI C}.

(** The body of the discovery loop. *)
Definition discover (discovered_device : FoundDevice.t)
           (coordinator_data : gmap string (gmap string bool))
  : M (Hub.t C) (gmap string (gmap string bool)) :=
  let tracker_id := FoundDevice.device_uuid discovered_device in
  devices <- Hub.devices ;;
  match devices !! tracker_id with
  | Some tracker =>
      let updated := Tracker.update_device tracker discovered_device in
      modify (Hub.set_device tracker_id (fst updated)) ;;;
      ret (record_change tracker_id "device" (snd updated) coordinator_data)
  | None =>
      modify (Hub.set_device tracker_id (Tracker.__init__ discovered_device)) ;;;
      ret coordinator_data
  end.

(** The body of the loop over the listening trackers.  The method
    looked up on the tracker is [update]. *)
Definition refresh_location (tracker_id : string)
           (coordinator_data : gmap string (gmap string bool))
  : M (Hub.t C) (gmap string (gmap string bool)) :=
  devices <- Hub.devices ;;
  tracker <- from_option (KeyError tracker_id) (devices !! tracker_id) ;;
  page <- Hub.await_client
            (client_get_device_history_page (Tracker.id tracker) 1 1) ;;
  if DeviceHistoryPage.success page then
    update <- from_option (AttributeError "update") (Tracker.entry_method "update") ;;
    entry <- from_option IndexError (DeviceHistoryPage.data page !! 0%nat) ;;
    let updated := update tracker entry in
    modify (Hub.set_device tracker_id (fst updated)) ;;;
    ret (record_change tracker_id "location" (snd updated) coordinator_data)
  else ret coordinator_data.

(** The iteration order of [listening_tracker_ids]. *)
Variable order : SetOrder.

(** What the [try] block of [_async_update_data] does; [contexts] is
    what the host's [async_contexts()] yields.  The 10-second
    [async_timeout] around the block shows as a TimeoutError raised by the
    await it interrupts. *)
Definition update_body (contexts : list string)
  : M (Hub.t C) (gmap string (gmap string bool)) :=
  let listening_tracker_ids : list string := set_iter order contexts in
  let coordinator_data : gmap string (gmap string bool) := ∅ in
  discovered <- Hub.await_client client_find_devices ;;
  coordinator_data <- for_fold discovered coordinator_data discover ;;
  coordinator_data <- for_fold listening_tracker_ids coordinator_data
                        refresh_location ;;
  ret coordinator_data.

Definition _async_update_data (contexts : list string)
  : M (Hub.t C) (gmap string (gmap string bool)) :=
  try_except (update_body contexts)
    (fun exc => raise (UpdateFailed "Error communicating with API" exc)).

End WithClient.

End AirboltCoordinator.

(** ** Tracker histories

    The calls a Tracker can receive after its construction, used to say
    "[update_location] has never been called" of an object. *)
Inductive TrackerCall : Type :=
| CallUpdateDevice (discovered_info : FoundDevice.t)
| CallUpdateLocation (history_entry : HistoryEntry.t).

Definition is_location_call (c : TrackerCall) : bool :=
  match c with
  | CallUpdateLocation _ => true
  | CallUpdateDevice _ => false
  end.

Definition apply_call (self : Tracker.t) (c : TrackerCall) : Tracker.t :=
  match c with
  | CallUpdateDevice d => fst (Tracker.update_device self d)
  | CallUpdateLocation e => fst (Tracker.update_location self e)
  end.

(** The Tracker built from [discovered_info] after the calls, in order. *)
Definition tracker_after (discovered_info : FoundDevice.t) (calls : list TrackerCall)
  : Tracker.t :=
  fold_left apply_call calls (Tracker.__init__ discovered_info).

(** The discovery loop of the coordinator as a function on the registry and
    the change mapping. *)
Definition discover_pure (st : gmap string Tracker.t * gmap string (gmap string bool))
           (d : FoundDevice.t)
  : gmap string Tracker.t * gmap string (gmap string bool) :=
  let tracker_id := FoundDevice.device_uuid d in
  match fst st !! tracker_id with
  | Some tracker =>
      (<[tracker_id := fst (Tracker.update_device tracker d)]> (fst st),
       AirboltCoordinator.record_change tracker_id "device"
         (snd (Tracker.update_device tracker d)) (snd st))
  | None => (<[tracker_id := Tracker.__init__ d]> (fst st), snd st)
  end.



(** The call the second loop of the coordinator awaits for a listening id,
    when the registry knows it. *)
Definition history_call (devices : gmap string Tracker.t) (tracker_id : string)
  : option ClientCall :=
  (fun tracker => CallGetDeviceHistoryPage (Tracker.id tracker) 1 1)
    <$> devices !! tracker_id.

(** The listening ids [ids] pass the second loop of the coordinator one
    after the other: each is a key of the registry and the page fetched
    for its Tracker, by the client the previous id left behind, reports no
    success; [c'] is the client after the last of them. *)
Fixpoint pages_without_report {C} {api : ClientAPI C}
         (devices : gmap string Tracker.t) (ids : list string) (c c' : C) : Prop :=
  match ids with
  | [] => c' = c
  | tracker_id :: ids' =>
      exists tracker page c1,
        devices !! tracker_id = Some tracker
        /\ client_get_device_history_page (Tracker.id tracker) 1 1 c
           = Some (Ok page, c1)
        /\ DeviceHistoryPage.success page = false
        /\ pages_without_report devices ids' c1 c'
  end.

(** The message of the UpdateFailed a cycle raises. *)
Definition update_failed (cause : exn) : exn :=
  UpdateFailed "Error communicating with API" cause.

(** The hub of a client that keeps its calls, from a hub and the calls so far. *)
Definition with_call_log {C} (hub : Hub.t C) (calls : list ClientCall)
  : Hub.t (C * list ClientCall) :=
  {| Hub._client := (Hub._client hub, calls);
     Hub._user := Hub._user hub;
     Hub._devices := Hub._devices hub |}.

(** No inner dict of the mapping has the key "location". *)
Definition only_device_keys (data : gmap string (gmap string bool)) : Prop :=
  forall tracker_id changes,
    data !! tracker_id = Some changes -> changes !! "location" = None.

(** The request a client sends for a path, under its current headers, and
    the client once that request is in its trace. *)
Definition client_request (urljoin : string -> string -> string)
           (self : AirboltClient.t) (m : AirboltClient.Method)
           (path : string) (body : list (string * string)) : AirboltClient.Request :=
  AirboltClient.mkRequest m (urljoin AirboltClient.BASE_URL path) body
    (AirboltClient.session_headers self).

Definition client_after_request (urljoin : string -> string -> string)
           (self : AirboltClient.t) (m : AirboltClient.Method)
           (path : string) (body : list (string * string)) : AirboltClient.t :=
  AirboltClient.log_event
    (AirboltClient.Sent (client_request urljoin self m path body)) self.

(** The outcome of a call whose response is final (any status but 401). *)
Definition final_outcome (response : AirboltClient.Response) : result string :=
  if (AirboltClient.status response =? 200)%Z
  then Ok (AirboltClient.text response)
  else if (400 <=? AirboltClient.status response)%Z
       then Err (ClientResponseError (AirboltClient.status response))
       else Ok "".

(** The body of the login request. *)
Definition login_body (username password : string) : list (string * string) :=
  [("username", username); ("password", password); ("twoFactorCode", "")].

(** A computation keeps a property of the state, however it ends. *)
Definition preserves {S A} (P : S -> Prop) (m : M S A) : Prop :=
  forall s, P s -> match m s with
                   | Some (_, s') => P s'
                   | None => True
                   end.

(** The Authorization header of the session is that of the stored login
    result, when there is one. *)
Definition authorization_matches (self : AirboltClient.t) : Prop :=
  forall login_result,
    AirboltClient._login_result self = Some login_result ->
    AirboltClient.session_headers self !! "Authorization"
    = Some (LoginResult.auth_header login_result).

(** The two headers every request of the API needs. *)
Definition json_headers (self : AirboltClient.t) : Prop :=
  AirboltClient.session_headers self !! "Accept" = Some "application/json"
  /\ AirboltClient.session_headers self !! "Content-Type"
     = Some "application/json; charset=utf-8".

(** The client holds these credentials and talks to this remote end, and
    its trace extends the given one. *)
Definition holds_credentials (username password : string)
           (remote : list AirboltClient.Event -> AirboltClient.Request
                     -> AirboltClient.Reply)
           (before : list AirboltClient.Event) (self : AirboltClient.t) : Prop :=
  AirboltClient._username self = Some username
  /\ AirboltClient._password self = Some password
  /\ AirboltClient.server self = remote
  /\ before `prefix_of` AirboltClient.trace self.

(** The record of the last [update_device] call, or that of the
    construction when there was none. *)
Definition last_device (discovered_info : FoundDevice.t) (calls : list TrackerCall)
  : FoundDevice.t :=
  fold_left (fun d c => match c with
                        | CallUpdateDevice d' => d'
                        | CallUpdateLocation _ => d
                        end) calls discovered_info.

(** Every Tracker of the registry sits under its own id. *)
Definition registry_keyed_by_id (devices : gmap string Tracker.t) : Prop :=
  forall key tracker, devices !! key = Some tracker -> Tracker.id tracker = key.

(** ** device_tracker.py *)
Module LocationTracker.

(** The entity: the context it subscribes with and the Tracker it shows. *)
Record t : Type := mk {
  context : string;
  _tracker : Tracker.t
}.

(** [LocationTracker(hub, tracker)] *)
Definition __init__ (tracker : Tracker.t) : t :=
  {| context := Tracker.id tracker; _tracker := tracker |}.

Definition unique_id (self : t) : string := Tracker.id (_tracker self).

Definition source_type (self : t) : string := "gps".

Definition latitude (self : t) : result float := Tracker.latitude (_tracker self).

Definition longitude (self : t) : result float := Tracker.longitude (_tracker self).

Definition location_accuracy (self : t) : result Z := Tracker.accuracy (_tracker self).

Definition location_name (self : t) : result string := Tracker.address (_tracker self).

(** [_handle_coordinator_update] on the mapping the coordinator holds, a
    [defaultdict(dict)]: reading a missing id stores an empty dict for it.
    The result is the mapping afterwards and whether
    [async_write_ha_state] was called. *)
Definition _handle_coordinator_update (self : t)
           (data : gmap string (gmap string bool))
  : gmap string (gmap string bool) * bool :=
  let tracker_id := Tracker.id (_tracker self) in
  let changes := default ∅ (data !! tracker_id) in
  let data' := match data !! tracker_id with
               | Some _ => data
               | None => <[tracker_id := ∅]> data
               end in
  let updated := existsb (fun updated : bool => updated) (snd <$> map_to_list changes) in
  (data', updated).

(** [async_setup_entry]: one entity per key of the registry; the result is
    the list handed to [async_add_entities], if it is called.  The keys
    come in the order of [map_to_list]. *)
Definition async_setup_entry (devices : gmap string Tracker.t) : option (list t) :=
  let new_devices := (fun kv => __init__ (snd kv)) <$> map_to_list devices in
  match new_devices with
  | [] => None
  | _ => Some new_devices
  end.

End LocationTracker.

(** ** Sample data and remote ends *)
Module Sample.

Definition float_10 : float := S754_finite false 5629499534213120 (-49).
Definition float_11 : float := S754_finite false 6192449487634432 (-49).
Definition float_20 : float := S754_finite false 5629499534213120 (-48).
(** 807.957, the accuracy of the sample in classes.py *)
Definition float_807_957 : float := S754_finite false 7106864929944109 (-43).

Definition entry (time_created : datetime) (latitude : float) (accuracy : float)
  : HistoryEntry.t :=
  {| HistoryEntry.id := "646cf0bc4346239e7508a868";
     HistoryEntry.device_uuid := "abc123";
     HistoryEntry.modem_voltage := Some 3926;
     HistoryEntry.modem_temperature := Some 25;
     HistoryEntry.type := mcell;
     HistoryEntry.time_created := time_created;
     HistoryEntry.latitude := latitude;
     HistoryEntry.longitude := float_20;
     HistoryEntry.accuracy := accuracy;
     HistoryEntry.location_changed := true;
     HistoryEntry.duration := 0;
     HistoryEntry.alert_type := Motion;
     HistoryEntry.address := "Little River Turnpike";
     HistoryEntry.last_seen_on := time_created |}.

Definition device (device_uuid name : string) : FoundDevice.t :=
  {| FoundDevice.id := "64681196b91db16459331733";
     FoundDevice.device_type := "shield_gps";
     FoundDevice.latitude := float_10;
     FoundDevice.longitude := float_20;
     FoundDevice.alert_level := 0;
     FoundDevice.last_history_time := 1684861091000000;
     FoundDevice.mark_as_lost := 0;
     FoundDevice.tone := 0;
     FoundDevice.deleted := false;
     FoundDevice.color := None;
     FoundDevice.modem_voltage := 3926;
     FoundDevice.modem_temperature := 25;
     FoundDevice.modem_state := 0;
     FoundDevice.device_uuid := device_uuid;
     FoundDevice.device_picture := "";
     FoundDevice.name := name;
     FoundDevice.time_created := 1684541846000000;
     FoundDevice.last_seen_time := 1684861091000000;
     FoundDevice.last_report_type := Motion |}.

Definition login_result : LoginResult.t :=
  {| LoginResult.id := "646805c7b91db16459331694";
     LoginResult.username := "user";
     LoginResult.time_created := 1684541846000000;
     LoginResult.name := "User";
     LoginResult.email := "user@example.org";
     LoginResult.roles := ["user"];
     LoginResult.failed_login_attempts := 0;
     LoginResult.two_factor_enabled := false;
     LoginResult.profile_picture := "";
     LoginResult.blocked_until := None;
     LoginResult.country := "US";
     LoginResult.currency := "USD";
     LoginResult.timezone := "UTC";
     LoginResult.deleted := false;
     LoginResult.cell_scan_limit := 150;
     LoginResult.session :=
       {| SessionInfo.id := "s1"; SessionInfo.user_id := "646805c7b91db16459331694";
          SessionInfo.key := "k"; SessionInfo.time := 1684541846000000;
          SessionInfo.created_at := 1684541846000000;
          SessionInfo.updated_at := 1684541846000000; SessionInfo.v := 0 |};
     LoginResult.auth_header := "Bearer fresh" |}.

Definition pagination : Pagination.t :=
  {| Pagination.total := 1; Pagination.total_pages := 1; Pagination.next := 1;
     Pagination.has_next := false; Pagination.prev := 1;
     Pagination.has_prev := false; Pagination.per_page := 1;
     Pagination.current := 1 |}.

Definition page (success : bool) (data : list HistoryEntry.t) : DeviceHistoryPage.t :=
  {| DeviceHistoryPage.success := success;
     DeviceHistoryPage.data := data;
     DeviceHistoryPage.pagination := pagination |}.

(** [urljoin] on the references of the scenarios below ("login",
    "users/me", "devices/find/<hex id>?page=0&perPage=999",
    "history/find/device/abc123?page=1&perPage=1") against a base that ends
    in a slash: the reference is appended. *)
Definition urljoin (base path : string) : string := base +:+ path.

(** One iteration order among the possible ones: that of [elements]. *)
Definition set_order : SetOrder :=
  {| set_iter := fun xs => elements (list_to_set xs : gset string);
     set_iter_NoDup := fun xs => NoDup_elements (list_to_set xs : gset string);
     set_iter_elem := fun xs x =>
       iff_trans (elem_of_elements (list_to_set xs : gset string) x)
                 (elem_of_list_to_set x xs) |}.

(** Schema validation on the three bodies the sample remote ends send. *)
Definition parse_LoginResult (raw : string) : option LoginResult.t :=
  if bool_decide (raw = "login-result") then Some login_result else None.

Definition parse_FoundDevices (raw : string) : result (list FoundDevice.t) :=
  if bool_decide (raw = "no-devices") then Ok []
  else if bool_decide (raw = "one-device") then Ok [device "abc123" "Keys"]
  else if bool_decide (raw = "one-device-twice")
       then Ok [device "abc123" "Keys"; device "abc123" "Keys"]
  else if bool_decide (raw = "{}") then Err ValidationError
  else Err JSONDecodeError.

Definition parse_DeviceHistoryPage (raw : string) : option DeviceHistoryPage.t :=
  if bool_decide (raw = "page-T1")
  then Some (page true [entry 1684861091000000 float_10 float_807_957])
  else None.

Definition api (fuel : nat) : ClientAPI AirboltClient.t :=
  AirboltClient_API urljoin parse_LoginResult parse_FoundDevices
    parse_DeviceHistoryPage fuel.

Definition is_post (r : AirboltClient.Request) : bool :=
  match AirboltClient.method r with
  | AirboltClient.POST => true
  | AirboltClient.GET => false
  end.

Definition sent_post (ev : AirboltClient.Event) : bool :=
  match ev with
  | AirboltClient.Sent r => is_post r
  | AirboltClient.Slept _ => false
  end.

Definition respond (status : Z) (text : string) : AirboltClient.Reply :=
  AirboltClient.Responds (AirboltClient.mkResponse status text).

(** A remote end whose sessions expire: a GET is served only under the
    bearer header that a login hands out; every login succeeds. *)
Definition remote_expired_session (trace : list AirboltClient.Event)
           (r : AirboltClient.Request) : AirboltClient.Reply :=
  if is_post r then respond 200 "login-result"
  else if bool_decide (AirboltClient.request_headers r !! "Authorization"
                       = Some "Bearer fresh")
       then respond 200 "no-devices"
       else respond 401 "".

(** A remote end that answers the first POST with 401 and every later
    one with 200. *)
Definition remote_first_post_401 (trace : list AirboltClient.Event)
           (r : AirboltClient.Request) : AirboltClient.Reply :=
  if existsb sent_post trace then respond 200 "login-result"
  else respond 401 "".

(** A remote end that answers every request with the given status. *)
Definition remote_always (status : Z) (trace : list AirboltClient.Event)
           (r : AirboltClient.Request) : AirboltClient.Reply :=
  respond status "".

(** A remote end that answers the first request with 401 and the others
    with 403. *)
Definition remote_401_then_403 (trace : list AirboltClient.Event)
           (r : AirboltClient.Request) : AirboltClient.Reply :=
  match trace with
  | [] => respond 401 ""
  | _ => respond 403 ""
  end.

(** A remote end with a valid session: one device, one report at T1. *)
Definition remote_healthy (devices_body : string) (trace : list AirboltClient.Event)
           (r : AirboltClient.Request) : AirboltClient.Reply :=
  if is_post r then respond 200 "login-result"
  else if String.prefix "https://airboltapiconnect.com/api/devices/find/"
                        (AirboltClient.url r)
       then respond 200 devices_body
       else respond 200 "page-T1".

(** A client that has not logged in yet, with credentials in place. *)
Definition client_with_credentials
           (remote : list AirboltClient.Event -> AirboltClient.Request
                     -> AirboltClient.Reply) : AirboltClient.t :=
  AirboltClient.set_credentials "user" "secret" (AirboltClient.__init__ remote).

(** A client after a successful login. *)
Definition client_logged_in
           (remote : list AirboltClient.Event -> AirboltClient.Request
                     -> AirboltClient.Reply) : AirboltClient.t :=
  AirboltClient.headers_update
    [("Accept", "application/json"); ("Authorization", "Bearer fresh")]
    (AirboltClient.set_login_result login_result (client_with_credentials remote)).

Definition hub (client : AirboltClient.t) (devices : gmap string Tracker.t)
  : Hub.t AirboltClient.t :=
  {| Hub._client := client; Hub._user := Some login_result;
     Hub._devices := devices |}.

Definition tracker_abc123 : Tracker.t := Tracker.__init__ (device "abc123" "Keys").

Definition get_request (path : string) (headers : gmap string string)
  : AirboltClient.Request :=
  {| AirboltClient.method := AirboltClient.GET;
     AirboltClient.url := AirboltClient.BASE_URL +:+ path;
     AirboltClient.json := [];
     AirboltClient.request_headers := headers |}.

Definition login_request (username password : string) (headers : gmap string string)
  : AirboltClient.Request :=
  {| AirboltClient.method := AirboltClient.POST;
     AirboltClient.url := AirboltClient.BASE_URL +:+ "login";
     AirboltClient.json :=
       [("username", username); ("password", password); ("twoFactorCode", "")];
     AirboltClient.request_headers := headers |}.

(** The headers of a session before and after a login. *)
Definition headers_initial : gmap string string :=
  AirboltClient.session_headers (AirboltClient.__init__ (remote_always 200)).

Definition headers_fresh : gmap string string :=
  AirboltClient.session_headers (client_logged_in (remote_always 200)).

End Sample.

(** * Properties *)

(** ** Tracker *)

Section TrackerFacts.
Implicit Types (self : Tracker.t) (d : FoundDevice.t) (e : HistoryEntry.t).

Lemma update_device_id self d :
  Tracker._id (fst (Tracker.update_device self d)) = Tracker._id self.
Proof. unfold Tracker.update_device. now destruct (_ && _). Qed.

Lemma update_device_last_report self d :
  Tracker._last_report (fst (Tracker.update_device self d))
  = Tracker._last_report self.
Proof. unfold Tracker.update_device. now destruct (_ && _). Qed.

Lemma update_location_cases self e :
  (Tracker.update_location self e = (self, false)
   ∧ ∃ stored, Tracker._last_report self = Some stored
               ∧ HistoryEntry.time_created stored = HistoryEntry.time_created e)
  ∨ (Tracker.update_location self e
     = (Tracker.set_last_report self (Some e), true)
     ∧ ¬ ∃ stored, Tracker._last_report self = Some stored
                   ∧ HistoryEntry.time_created stored
                     = HistoryEntry.time_created e).
Proof.
  unfold Tracker.update_location.
  destruct (Tracker._last_report self) as [r|] eqn:Hr.
  - destruct (bool_decide_reflect
                (HistoryEntry.time_created r = HistoryEntry.time_created e))
      as [Heq|Hne].
    + left. split; [reflexivity | exists r; split; [reflexivity | exact Heq]].
    + right. split; [reflexivity|]. intros (stored & Hs & Ht).
      injection Hs as <-. contradiction.
  - right. split; [reflexivity|]. intros (stored & Hs & _). discriminate.
Qed.

Lemma update_location_last_report_is_Some self e :
  is_Some (Tracker._last_report (fst (Tracker.update_location self e))).
Proof.
  destruct (update_location_cases self e) as [[-> (r & Hr & _)] | [-> _]];
    simpl; eauto.
Qed.

Lemma apply_call_keeps_report self c :
  is_Some (Tracker._last_report self) →
  is_Some (Tracker._last_report (apply_call self c)).
Proof.
  intros H. destruct c as [d|e]; simpl.
  - now rewrite update_device_last_report.
  - apply update_location_last_report_is_Some.
Qed.

Lemma fold_calls_keeps_report calls self :
  is_Some (Tracker._last_report self) →
  is_Some (Tracker._last_report (fold_left apply_call calls self)).
Proof.
  revert self. induction calls as [|c calls IH]; intros self H; simpl.
  - exact H.
  - apply IH, apply_call_keeps_report, H.
Qed.

Lemma fold_calls_report calls self :
  if existsb is_location_call calls
  then is_Some (Tracker._last_report (fold_left apply_call calls self))
  else Tracker._last_report (fold_left apply_call calls self)
       = Tracker._last_report self.
Proof.
  revert self. induction calls as [|c calls IH]; intros self; simpl.
  - reflexivity.
  - destruct c as [d|e]; simpl.
    + specialize (IH (fst (Tracker.update_device self d))).
      destruct (existsb is_location_call calls); [exact IH|].
      now rewrite IH, update_device_last_report.
    + apply fold_calls_keeps_report, update_location_last_report_is_Some.
Qed.

End TrackerFacts.

(** C4: [update_location] returns false and leaves the Tracker untouched
    exactly when a stored entry has the timestamp of the new one; in every
    other case, the first call included, the stored entry becomes the new
    entry itself and the result is true; a further call with an entry of
    that timestamp returns false and changes nothing. *)
Theorem update_location_timestamp_only
    (self : Tracker.t) (entry other : HistoryEntry.t) :
  let out := Tracker.update_location self entry in
  ((snd out = false ∧ fst out = self)
   ↔ ∃ stored, Tracker._last_report self = Some stored
               ∧ HistoryEntry.time_created stored = HistoryEntry.time_created entry)
  ∧ (if snd out
     then fst out = Tracker.set_last_report self (Some entry)
     else fst out = self)
  ∧ (HistoryEntry.time_created other = HistoryEntry.time_created entry →
     Tracker.update_location (fst out) other = (fst out, false)).
Proof.
  intros out. subst out.
  destruct (update_location_cases self entry) as [[Heq Hex] | [Heq Hnex]];
    rewrite Heq; simpl.
  - split; [tauto|]. split; [reflexivity|].
    intros Ht. destruct Hex as (stored & Hs & Hst).
    unfold Tracker.update_location. rewrite Hs.
    rewrite bool_decide_eq_true_2 by congruence. reflexivity.
  - split; [|split; [reflexivity|]].
    + split; [intros [? _]; discriminate | intros H; contradiction].
    + intros Ht. unfold Tracker.update_location. simpl.
      rewrite bool_decide_eq_true_2 by congruence. reflexivity.
Qed.

Lemma update_location_timestamp_only_witness :
  let t1 := fst (Tracker.update_location Sample.tracker_abc123
                   (Sample.entry 1 Sample.float_10 Sample.float_807_957)) in
  Tracker.latitude t1 = Ok Sample.float_10
  ∧ Tracker.update_location t1 (Sample.entry 1 Sample.float_11 Sample.float_807_957)
    = (t1, false).
Proof.
  split; [reflexivity|].
  apply (update_location_timestamp_only Sample.tracker_abc123
           (Sample.entry 1 Sample.float_10 Sample.float_807_957)
           (Sample.entry 1 Sample.float_11 Sample.float_807_957)).
  reflexivity.
Defined.

(** C5: after [update_device] the stored name and model are those of the
    discovered record, the object being the one an unconditional overwrite
    produces, and the result is true exactly when the name or the
    model/type differed from what was stored. *)
Theorem update_device_overwrites (self : Tracker.t) (discovered : FoundDevice.t) :
  let out := Tracker.update_device self discovered in
  fst out = Tracker.set_name_model self (FoundDevice.name discovered)
              (FoundDevice.device_type discovered)
  ∧ Tracker._name (fst out) = FoundDevice.name discovered
  ∧ Tracker._model (fst out) = FoundDevice.device_type discovered
  ∧ (snd out = true
     ↔ Tracker._name self ≠ FoundDevice.name discovered
       ∨ Tracker._model self ≠ FoundDevice.device_type discovered).
Proof.
  intros out. subst out. unfold Tracker.update_device.
  destruct (bool_decide_reflect (Tracker._name self = FoundDevice.name discovered))
    as [Hn|Hn];
    destruct (bool_decide_reflect
                (Tracker._model self = FoundDevice.device_type discovered))
      as [Hm|Hm]; simpl.
  - repeat split; try assumption.
    + destruct self; simpl in *; now subst.
    + discriminate.
    + intros [?|?]; contradiction.
  - repeat split; auto.
  - repeat split; auto.
  - repeat split; auto.
Qed.

(** C6: on a Tracker that has received no [update_location] call since its
    construction, each of the seven location-derived properties raises
    MissingDataError; once one has been received, none of them does. *)
Theorem location_accessors_need_a_report
    (discovered : FoundDevice.t) (calls : list TrackerCall) :
  let self := tracker_after discovered calls in
  if existsb is_location_call calls
  then Tracker.latitude self ≠ Err MissingDataError
       ∧ Tracker.longitude self ≠ Err MissingDataError
       ∧ Tracker.accuracy self ≠ Err MissingDataError
       ∧ Tracker.address self ≠ Err MissingDataError
       ∧ Tracker.alert_type self ≠ Err MissingDataError
       ∧ Tracker.last_report_time self ≠ Err MissingDataError
       ∧ Tracker.modem_temperature self ≠ Err MissingDataError
  else Tracker.latitude self = Err MissingDataError
       ∧ Tracker.longitude self = Err MissingDataError
       ∧ Tracker.accuracy self = Err MissingDataError
       ∧ Tracker.address self = Err MissingDataError
       ∧ Tracker.alert_type self = Err MissingDataError
       ∧ Tracker.last_report_time self = Err MissingDataError
       ∧ Tracker.modem_temperature self = Err MissingDataError.
Proof.
  intros self. subst self. unfold tracker_after.
  pose proof (fold_calls_report calls (Tracker.__init__ discovered)) as H.
  destruct (existsb is_location_call calls).
  - destruct H as [r Hr].
    unfold Tracker.latitude, Tracker.longitude, Tracker.accuracy, Tracker.address,
      Tracker.alert_type, Tracker.last_report_time, Tracker.modem_temperature,
      Tracker.last_report_or_raise.
    rewrite Hr. repeat split; try discriminate.
    destruct (HistoryEntry.accuracy r); simpl; discriminate.
  - unfold Tracker.__init__ in H at 2. rewrite update_device_last_report in H.
    simpl in H.
    unfold Tracker.latitude, Tracker.longitude, Tracker.accuracy, Tracker.address,
      Tracker.alert_type, Tracker.last_report_time, Tracker.modem_temperature,
      Tracker.last_report_or_raise.
    rewrite H. repeat split.
Qed.

(** C7, amended: with a report recorded, [accuracy] is 10000 when the
    stored accuracy is falsy, which it is exactly when it is a zero (the
    schema admits no null); for a finite value (-1)^s * m * 2^e other than
    zero it is the integer of the same sign whose magnitude is the largest
    integer not above m * 2^e; for an infinity or NaN, which are truthy as
    well, it returns nothing and raises OverflowError or ValueError.  So
    it returns an integer exactly for the zeros and the finite values. *)
Theorem accuracy_defaults_to_10000 (self : Tracker.t) (report : HistoryEntry.t) :
  Tracker._last_report self = Some report →
  let stored := HistoryEntry.accuracy report in
  (float_truthy stored = false ↔ ∃ s, stored = S754_zero s)
  ∧ (float_truthy stored = false → Tracker.accuracy self = Ok 10000)
  ∧ (∀ s m e, stored = S754_finite s m e →
       float_truthy stored = true
       ∧ ∃ z : Z,
           Tracker.accuracy self = Ok (if s then - z else z)
           ∧ (0 <= z)%Z
           ∧ (0 <= e → z = Z.pos m * 2 ^ e)%Z
           ∧ (e < 0 → z * 2 ^ (- e) <= Z.pos m < (z + 1) * 2 ^ (- e))%Z)
  ∧ (∀ s, stored = S754_infinity s →
       float_truthy stored = true ∧ Tracker.accuracy self = Err OverflowError)
  ∧ (stored = S754_nan →
     float_truthy stored = true ∧ Tracker.accuracy self = Err ValueError)
  ∧ ((∃ z, Tracker.accuracy self = Ok z)
     ↔ stored ≠ S754_nan ∧ ∀ s, stored ≠ S754_infinity s).
Proof.
  intros Hr stored. unfold Tracker.accuracy, Tracker.last_report_or_raise.
  rewrite Hr. fold stored.
  split; [|split; [|split; [|split; [|split]]]].
  - split.
    + destruct stored; try discriminate. eauto.
    + intros [s ->]. reflexivity.
  - intros ->. reflexivity.
  - intros s m e ->. split; [reflexivity|]. simpl.
    exists (Z.shiftl (Z.pos m) e). split; [reflexivity|].
    split; [apply Z.shiftl_nonneg; lia|]. split.
    + intros He. now apply Z.shiftl_mul_pow2.
    + intros He. rewrite Z.shiftl_div_pow2 by lia.
      assert (Hpow : (0 < 2 ^ (- e))%Z) by (apply Z.pow_pos_nonneg; lia).
      pose proof (Z.div_mod (Z.pos m) (2 ^ (- e)) ltac:(lia)) as Hdiv.
      pose proof (Z.mod_pos_bound (Z.pos m) (2 ^ (- e)) Hpow) as Hmod.
      nia.
  - intros s ->. split; reflexivity.
  - intros ->. split; reflexivity.
  - split.
    + intros [z Hz]. destruct stored; try discriminate; split; intros; discriminate.
    + intros [Hnan Hinf]. destruct stored as [s|s| |s m e]; simpl; eauto.
      * exfalso. exact (Hinf s eq_refl).
      * exfalso. exact (Hnan eq_refl).
Qed.

Lemma accuracy_defaults_to_10000_witness :
  let with_accuracy a :=
    fst (Tracker.update_location Sample.tracker_abc123
           (Sample.entry 1 Sample.float_10 a)) in
  Tracker.accuracy (with_accuracy (S754_zero false)) = Ok 10000
  ∧ (∃ z : Z, Tracker.accuracy (with_accuracy Sample.float_807_957) = Ok z
              ∧ (z * 2 ^ 43 <= 7106864929944109 < (z + 1) * 2 ^ 43)%Z)
  ∧ Tracker.accuracy (with_accuracy (S754_infinity false)) = Err OverflowError.
Proof.
  intros with_accuracy. split; [|split].
  - destruct (accuracy_defaults_to_10000 (with_accuracy (S754_zero false))
                (Sample.entry 1 Sample.float_10 (S754_zero false)) eq_refl)
      as (_ & Hzero & _).
    exact (Hzero eq_refl).
  - destruct (accuracy_defaults_to_10000 (with_accuracy Sample.float_807_957)
                (Sample.entry 1 Sample.float_10 Sample.float_807_957) eq_refl)
      as (_ & _ & Hfinite & _).
    destruct (Hfinite false 7106864929944109%positive (-43)%Z eq_refl)
      as (_ & z & Hz & _ & _ & Hbounds).
    exists z. split; [exact Hz | apply Hbounds; lia].
  - destruct (accuracy_defaults_to_10000 (with_accuracy (S754_infinity false))
                (Sample.entry 1 Sample.float_10 (S754_infinity false)) eq_refl)
      as (_ & _ & _ & Hinf & _).
    exact (proj2 (Hinf false eq_refl)).
Defined.

(** C7 as written fails for a stored infinity, which a JSON number such as
    1e999 validates to: the value is truthy, and [accuracy] returns no
    integer for it. *)
Lemma accuracy_of_infinity_raises :
  let self := fst (Tracker.update_location Sample.tracker_abc123
                     (Sample.entry 1 Sample.float_10 (S754_infinity false))) in
  float_truthy (S754_infinity false) = true
  ∧ Tracker.accuracy self = Err OverflowError
  ∧ ∀ z : Z, Tracker.accuracy self ≠ Ok z.
Proof. repeat split. intros z. discriminate. Qed.

(** C10: [update_device] leaves the last report and the id as they were,
    and [update_location] leaves the name, the model and the id as they
    were. *)
Theorem mutators_touch_only_their_fields
    (self : Tracker.t) (discovered : FoundDevice.t) (entry : HistoryEntry.t) :
  (Tracker._last_report (fst (Tracker.update_device self discovered))
   = Tracker._last_report self
   ∧ Tracker._id (fst (Tracker.update_device self discovered)) = Tracker._id self)
  ∧ (Tracker._name (fst (Tracker.update_location self entry)) = Tracker._name self
     ∧ Tracker._model (fst (Tracker.update_location self entry))
       = Tracker._model self
     ∧ Tracker._id (fst (Tracker.update_location self entry)) = Tracker._id self).
Proof.
  split.
  - split; [apply update_device_last_report | apply update_device_id].
  - destruct (update_location_cases self entry) as [[-> _] | [-> _]];
      simpl; repeat split.
Qed.

(** ** AirboltClient: what follows a 401 *)

Section ClientFacts.
Variable urljoin : string -> string -> string.
Variable parse_LoginResult : string -> option LoginResult.t.

(** Once [retry] is false the loop is over: the last response decides. *)
Lemma _get_loop_done fuel path response :
  AirboltClient._get_loop urljoin parse_LoginResult fuel path false (Some response)
  = (AirboltClient.raise_for_status response ;;; ret "").
Proof. destruct fuel; reflexivity. Qed.

Lemma _post_loop_done fuel path body response :
  AirboltClient._post_loop urljoin parse_LoginResult fuel path body false (Some response)
  = (AirboltClient.raise_for_status response ;;; ret "").
Proof. destruct fuel; reflexivity. Qed.

(** A GET answered with 401 sleeps, replays the login and then raises for
    the 401 it already holds: no second GET is sent. *)
Lemma _get_after_401 fuel path self response self1 :
  AirboltClient.session_request AirboltClient.GET
    (urljoin AirboltClient.BASE_URL path) [] self
  = Some (Ok response, self1) →
  AirboltClient.status response = 401 →
  AirboltClient._get urljoin parse_LoginResult (S fuel) path self
  = match (AirboltClient.sleep 500 ;;;
           AirboltClient._reauthenticate urljoin parse_LoginResult fuel) self1 with
    | None => None
    | Some (Ok _, self2) => Some (Err (ClientResponseError 401), self2)
    | Some (Err e, self2) => Some (Err e, self2)
    end.
Proof.
  intros Hreq Hst. unfold AirboltClient._get. simpl.
  unfold bind at 1. rewrite Hreq, Hst. simpl.
  rewrite _get_loop_done.
  cbv [bind AirboltClient.sleep modify AirboltClient.raise_for_status].
  rewrite Hst.
  destruct (AirboltClient._reauthenticate urljoin parse_LoginResult fuel _)
    as [[[lr|e] self2]|]; reflexivity.
Qed.

(** The same for a POST, whose [continue] re-tests a [retry] that is
    already false. *)
Lemma _post_after_401 fuel path body self response self1 :
  AirboltClient.session_request AirboltClient.POST
    (urljoin AirboltClient.BASE_URL path) body self
  = Some (Ok response, self1) →
  AirboltClient.status response = 401 →
  AirboltClient._post urljoin parse_LoginResult (S fuel) path body self
  = match (AirboltClient.sleep 500 ;;;
           AirboltClient._reauthenticate urljoin parse_LoginResult fuel) self1 with
    | None => None
    | Some (Ok _, self2) => Some (Err (ClientResponseError 401), self2)
    | Some (Err e, self2) => Some (Err e, self2)
    end.
Proof.
  intros Hreq Hst. unfold AirboltClient._post. simpl.
  unfold bind at 1. rewrite Hreq, Hst. simpl.
  rewrite _post_loop_done.
  change (AirboltClient._reauthenticate_with parse_LoginResult
            (λ p b, AirboltClient._post_loop urljoin parse_LoginResult fuel p b true None))
    with (AirboltClient._reauthenticate urljoin parse_LoginResult fuel).
  cbv [bind AirboltClient.sleep modify AirboltClient.raise_for_status].
  rewrite Hst.
  destruct (AirboltClient._reauthenticate urljoin parse_LoginResult fuel _)
    as [[[lr|e] self2]|]; reflexivity.
Qed.

End ClientFacts.

(** C1, at the inputs where the code departs from it.  A GET sent under an
    expired session is answered 401; the client sleeps 500 seconds and logs
    in again with the stored credentials, and then raises for the first
    response although the remote end would now serve the same GET.  A POST
    answered 401 once ends the same way, after a replayed login that
    succeeded. *)
Theorem request_rejected_with_401_is_not_retried :
  match AirboltClient._get Sample.urljoin Sample.parse_LoginResult 3 "users/me"
          (Sample.client_with_credentials Sample.remote_expired_session) with
  | Some (r, client') =>
      r = Err (ClientResponseError 401)
      ∧ AirboltClient.trace client'
        = [AirboltClient.Sent (Sample.get_request "users/me" Sample.headers_initial);
           AirboltClient.Slept 500;
           AirboltClient.Sent
             (Sample.login_request "user" "secret" Sample.headers_initial)]
      ∧ AirboltClient.server client' (AirboltClient.trace client')
          (Sample.get_request "users/me" (AirboltClient.session_headers client'))
        = Sample.respond 200 "no-devices"
  | None => False
  end
  ∧ match AirboltClient._post Sample.urljoin Sample.parse_LoginResult 3 "login"
            [("username", "user"); ("password", "secret"); ("twoFactorCode", "")]
            (Sample.client_with_credentials Sample.remote_first_post_401) with
    | Some (r, client') =>
        r = Err (ClientResponseError 401)
        ∧ AirboltClient.trace client'
          = [AirboltClient.Sent
               (Sample.login_request "user" "secret" Sample.headers_initial);
             AirboltClient.Slept 500;
             AirboltClient.Sent
               (Sample.login_request "user" "secret" Sample.headers_initial)]
        ∧ AirboltClient.server client' (AirboltClient.trace client')
            (Sample.login_request "user" "secret"
               (AirboltClient.session_headers client'))
          = Sample.respond 200 "login-result"
    | None => False
    end.
Proof. vm_compute. repeat split. Qed.

(** A status below 400 other than 200 raises nothing: the call returns the
    empty string. *)
Lemma _get_204_returns_empty_string :
  match AirboltClient._get Sample.urljoin Sample.parse_LoginResult 3 "users/me"
          (Sample.client_with_credentials (Sample.remote_always 204)) with
  | Some (r, _) => r = Ok ""
  | None => False
  end.
Proof. vm_compute. reflexivity. Qed.

(** ** Hub: login *)

(** Against a remote end that answers every request with 401 the login
    never returns: each replayed login is itself answered 401 and replays
    the login. *)
Lemma login_rejected_with_401_replays_forever urljoin parse_LoginResult fuel :
  ∀ (self : AirboltClient.t) username password path body,
    AirboltClient.server self = Sample.remote_always 401 →
    AirboltClient._username self = Some username →
    AirboltClient._password self = Some password →
    AirboltClient._post urljoin parse_LoginResult fuel path body self = None.
Proof.
  unfold AirboltClient._post.
  induction fuel as [|fuel IH]; intros self username password path body Hs Hu Hp.
  - reflexivity.
  - simpl. unfold bind at 1. unfold AirboltClient.session_request.
    rewrite Hs. simpl.
    cbv [bind AirboltClient.sleep modify AirboltClient._reauthenticate_with gets
         from_option ret].
    simpl. rewrite Hu. simpl. rewrite Hp. simpl.
    erewrite IH; [reflexivity | exact Hs | exact Hu | exact Hp].
Qed.

(** C3, at the inputs where the code departs from it.  A login rejected
    with 403 raises the client's ClientResponseError, which the handler of
    [_login] does not match, so no InvalidCredentials is raised; a login
    rejected with 401 is replayed after 500 seconds before anything
    reaches the caller. *)
Theorem rejected_login_is_not_mapped_to_InvalidCredentials :
  match Hub._login (api := Sample.api 3) "user" "wrong"
          (Hub.mk (AirboltClient.__init__ (Sample.remote_always 403)) None ∅) with
  | Some (r, hub') =>
      r = Err (ClientResponseError 403)
      ∧ AirboltClient.trace (Hub._client hub')
        = [AirboltClient.Sent
             (Sample.login_request "user" "wrong" Sample.headers_initial)]
  | None => False
  end
  ∧ match Hub._login (api := Sample.api 3) "user" "wrong"
            (Hub.mk (AirboltClient.__init__ Sample.remote_401_then_403) None ∅) with
    | Some (r, hub') =>
        r = Err (ClientResponseError 403)
        ∧ AirboltClient.trace (Hub._client hub')
          = [AirboltClient.Sent
               (Sample.login_request "user" "wrong" Sample.headers_initial);
             AirboltClient.Slept 500;
             AirboltClient.Sent
               (Sample.login_request "user" "wrong" Sample.headers_initial)]
    | None => False
    end.
Proof. vm_compute. repeat split. Qed.

(** ** Coordinator: the two loops of a refresh cycle *)

(** A set built from one string is iterated in one way only. *)
Lemma set_iter_singleton (order : SetOrder) (x : string) :
  set_iter order [x] = [x].
Proof.
  pose proof (set_iter_NoDup order [x]) as Hnd.
  pose proof (set_iter_elem order [x]) as Hel.
  destruct (set_iter order [x]) as [|y l].
  - exfalso. apply (not_elem_of_nil x), Hel. left.
  - assert (y = x) as ->.
    { apply list_elem_of_singleton, Hel. left. }
    destruct l as [|z l]; [reflexivity|].
    assert (z = x) as ->.
    { apply list_elem_of_singleton, Hel. right. left. }
    apply NoDup_cons in Hnd as [Hnot _]. exfalso. apply Hnot. left.
Qed.

Section CoordinatorFacts.
Context {C : Type} {api : ClientAPI C}.
Implicit Types (hub : Hub.t C) (data : gmap string (gmap string bool)).

Lemma await_client_run {A} (m : M C A) hub :
  Hub.await_client m hub
  = match m (Hub._client hub) with
    | None => None
    | Some (r, c') => Some (r, Hub.set_client c' hub)
    end.
Proof. reflexivity. Qed.

Lemma discover_run d data hub :
  AirboltCoordinator.discover d data hub
  = Some (Ok (snd (discover_pure (Hub._devices hub, data) d)),
          Hub.with_devices (fst (discover_pure (Hub._devices hub, data) d)) hub).
Proof.
  unfold AirboltCoordinator.discover, discover_pure, Hub.devices, bind, gets.
  simpl. destruct (Hub._devices hub !! FoundDevice.device_uuid d); reflexivity.
Qed.

Lemma discovery_loop_run ds : ∀ data hub,
  for_fold ds data AirboltCoordinator.discover hub
  = Some (Ok (snd (fold_left discover_pure ds (Hub._devices hub, data))),
          Hub.with_devices
            (fst (fold_left discover_pure ds (Hub._devices hub, data))) hub).
Proof.
  induction ds as [|d ds IH]; intros data hub; simpl.
  - destruct hub; reflexivity.
  - unfold bind. rewrite discover_run, IH. simpl.
    destruct (discover_pure (Hub._devices hub, data) d); reflexivity.
Qed.

(** A listening tracker is looked up, its page fetched, and a page that
    reports success ends in the lookup of [update] on the Tracker. *)
Lemma refresh_location_run tracker_id data hub :
  AirboltCoordinator.refresh_location tracker_id data hub
  = match Hub._devices hub !! tracker_id with
    | None => Some (Err (KeyError tracker_id), hub)
    | Some tracker =>
        match client_get_device_history_page (Tracker.id tracker) 1 1
                (Hub._client hub) with
        | None => None
        | Some (Err e, c') => Some (Err e, Hub.set_client c' hub)
        | Some (Ok page, c') =>
            if DeviceHistoryPage.success page
            then Some (Err (AttributeError "update"), Hub.set_client c' hub)
            else Some (Ok data, Hub.set_client c' hub)
        end
    end.
Proof.
  unfold AirboltCoordinator.refresh_location, Hub.devices, bind, gets. simpl.
  destruct (Hub._devices hub !! tracker_id) as [tracker|]; simpl; [|reflexivity].
  rewrite await_client_run.
  destruct (client_get_device_history_page (Tracker.id tracker) 1 1
              (Hub._client hub)) as [[[page|e] c']|]; try reflexivity.
  destruct (DeviceHistoryPage.success page); reflexivity.
Qed.

(** The second loop changes neither the registry nor the mapping. *)
Lemma refresh_loop_frame ids : ∀ data hub,
  match for_fold ids data AirboltCoordinator.refresh_location hub with
  | None => True
  | Some (r, hub') =>
      Hub._devices hub' = Hub._devices hub
      ∧ match r with Ok data' => data' = data | Err _ => True end
  end.
Proof.
  induction ids as [|tracker_id ids IH]; intros data hub; simpl.
  - split; reflexivity.
  - unfold bind. rewrite refresh_location_run.
    destruct (Hub._devices hub !! tracker_id) as [tracker|]; [|split; trivial].
    destruct (client_get_device_history_page (Tracker.id tracker) 1 1
                (Hub._client hub)) as [[[page|e] c']|]; try (split; trivial); trivial.
    destruct (DeviceHistoryPage.success page); [split; trivial|].
    specialize (IH data (Hub.set_client c' hub)).
    destruct (for_fold ids data AirboltCoordinator.refresh_location
                (Hub.set_client c' hub)) as [[r hub']|]; exact IH.
Qed.

End CoordinatorFacts.

Section RegistryFacts.
Implicit Types (st : gmap string Tracker.t * gmap string (gmap string bool)).

Lemma discover_pure_dom st d :
  dom (fst (discover_pure st d)) = {[FoundDevice.device_uuid d]} ∪ dom (fst st).
Proof.
  unfold discover_pure.
  destruct (fst st !! FoundDevice.device_uuid d); simpl; apply dom_insert_L.
Qed.


Lemma record_change_other tracker_id key value data other :
  tracker_id ≠ other →
  AirboltCoordinator.record_change tracker_id key value data !! other
  = data !! other.
Proof. intros Hne. unfold AirboltCoordinator.record_change. now rewrite lookup_insert_ne. Qed.

Lemma discover_pure_other st d other :
  FoundDevice.device_uuid d ≠ other →
  fst (discover_pure st d) !! other = fst st !! other
  ∧ snd (discover_pure st d) !! other = snd st !! other.
Proof.
  intros Hne. unfold discover_pure.
  destruct (fst st !! FoundDevice.device_uuid d); simpl.
  - split; [now rewrite lookup_insert_ne | now apply record_change_other].
  - split; [now rewrite lookup_insert_ne | reflexivity].
Qed.

Lemma discovery_absent ds : ∀ st other,
  other ∉ (FoundDevice.device_uuid <$> ds) →
  snd (fold_left discover_pure ds st) !! other = snd st !! other.
Proof.
  induction ds as [|d ds IH]; intros st other Hnot; simpl; [reflexivity|].
  rewrite fmap_cons in Hnot. apply not_elem_of_cons in Hnot as [Hne Hnot].
  rewrite IH by exact Hnot.
  apply discover_pure_other. congruence.
Qed.

Lemma discovery_first_appearance ds : ∀ st tracker_id,
  NoDup (FoundDevice.device_uuid <$> ds) →
  fst st !! tracker_id = None →
  snd (fold_left discover_pure ds st) !! tracker_id = snd st !! tracker_id.
Proof.
  induction ds as [|d ds IH]; intros st tracker_id Hnd Hnew; simpl; [reflexivity|].
  rewrite fmap_cons in Hnd. apply NoDup_cons in Hnd as [Hfresh Hnd].
  destruct (decide (FoundDevice.device_uuid d = tracker_id)) as [<-|Hne].
  - rewrite discovery_absent by exact Hfresh.
    unfold discover_pure. now rewrite Hnew.
  - destruct (discover_pure_other st d tracker_id Hne) as [Hfst Hsnd].
    rewrite IH; [exact Hsnd | exact Hnd | now rewrite Hfst].
Qed.

End RegistryFacts.

Section CycleFacts.
Context {C : Type} {api : ClientAPI C}.
Implicit Types (hub : Hub.t C) (data : gmap string (gmap string bool)).

(** The [try] block, loop by loop. *)
Lemma update_body_run order contexts hub :
  AirboltCoordinator.update_body order contexts hub
  = match client_find_devices (Hub._client hub) with
    | None => None
    | Some (Err e, c') => Some (Err e, Hub.set_client c' hub)
    | Some (Ok discovered, c') =>
        let st := fold_left discover_pure discovered (Hub._devices hub, ∅) in
        for_fold (set_iter order contexts) (snd st)
          AirboltCoordinator.refresh_location
          (Hub.with_devices (fst st) (Hub.set_client c' hub))
    end.
Proof.
  unfold AirboltCoordinator.update_body, bind. rewrite await_client_run.
  destruct (client_find_devices (Hub._client hub)) as [[[discovered|e] c']|];
    try reflexivity.
  rewrite discovery_loop_run. simpl.
  destruct (for_fold _ _ _ _) as [[[data'|e] hub']|]; reflexivity.
Qed.


Lemma _login_registry username password hub :
  match Hub._login username password hub with
  | None => True
  | Some (_, hub') => Hub._devices hub' = Hub._devices hub
  end.
Proof.
  unfold Hub._login, try_except, bind. rewrite await_client_run.
  destruct (client_login username password (Hub._client hub))
    as [[[user|e] c']|]; simpl; trivial.
  destruct e; reflexivity.
Qed.




End CycleFacts.

Section CallFacts.
Context {C : Type} (api : ClientAPI C).

(** With a client that keeps its calls: the second loop awaits one
    history page per listening id, in order, up to the first failure. *)
Lemma refresh_loop_calls ids :
  ∀ (data : gmap string (gmap string bool)) (hub : Hub.t (C * list ClientCall)),
    match for_fold ids data
            (AirboltCoordinator.refresh_location (api := logged api)) hub with
    | None => True
    | Some (r, hub') =>
        ∃ n : nat,
          snd (Hub._client hub')
          = (snd (Hub._client hub)
             ++ omap (history_call (Hub._devices hub)) (take n ids))%list
          ∧ match r with Ok _ => n = length ids | Err _ => True end
    end.
Proof.
  induction ids as [|tracker_id ids IH]; intros data hub; simpl.
  - exists 0%nat. simpl. now rewrite app_nil_r.
  - unfold bind. rewrite refresh_location_run.
    destruct (Hub._devices hub !! tracker_id) as [tracker|] eqn:Hlook.
    + assert (Hcall : ∀ k, omap (history_call (Hub._devices hub))
                             (take (S k) (tracker_id :: ids))
                           = CallGetDeviceHistoryPage (Tracker.id tracker) 1 1
                             :: omap (history_call (Hub._devices hub))
                                  (take k ids)).
      { intros k. simpl. unfold history_call at 1. now rewrite Hlook. }
      simpl. unfold logging.
      destruct (client_get_device_history_page (Tracker.id tracker) 1 1
                  (fst (Hub._client hub))) as [[[page|e] c']|]; trivial.
      * destruct (DeviceHistoryPage.success page).
        -- exists 1%nat. rewrite Hcall. simpl. split; trivial.
        -- specialize (IH data
                         (Hub.set_client
                            (c', (snd (Hub._client hub)
                                  ++ [CallGetDeviceHistoryPage
                                        (Tracker.id tracker) 1 1])%list) hub)).
           destruct (for_fold ids data _ _) as [[r hub']|]; trivial.
           destruct IH as (n & Hlog & Hn). exists (S n).
           rewrite Hcall. split.
           ++ rewrite Hlog. simpl. now rewrite <- app_assoc.
           ++ destruct r; [now subst | trivial].
      * exists 1%nat. rewrite Hcall. simpl. split; trivial.
    + exists 0%nat. simpl. now rewrite app_nil_r.
Qed.

Lemma cycle_calls order contexts (hub : Hub.t C) (calls : list ClientCall) :
  match AirboltCoordinator._async_update_data (api := logged api) order contexts
          (with_call_log hub calls) with
  | None => True
  | Some (r, hub') =>
      ∃ n : nat,
        snd (Hub._client hub')
        = (calls ++ CallFindDevices
             :: omap (history_call (Hub._devices hub'))
                  (take n (set_iter order contexts)))%list
        ∧ match r with
          | Ok _ => n = length (set_iter order contexts)
          | Err _ => True
          end
  end.
Proof.
  unfold AirboltCoordinator._async_update_data, try_except.
  rewrite update_body_run. simpl. unfold logging. simpl.
  destruct (client_find_devices (Hub._client hub)) as [[[discovered|e] c']|];
    trivial.
  - set (st := fold_left discover_pure discovered (Hub._devices hub, ∅)).
    set (hub1 := Hub.with_devices (fst st)
                   (Hub.set_client (c', (calls ++ [CallFindDevices])%list)
                      (with_call_log hub calls))).
    pose proof (refresh_loop_calls
                  (set_iter order contexts)
                  (snd st) hub1) as Hcalls.
    pose proof (refresh_loop_frame (api := logged api)
                  (set_iter order contexts)
                  (snd st) hub1) as Hframe.
    destruct (for_fold _ (snd st) _ hub1) as [[[data'|exc] hub']|]; trivial;
      destruct Hcalls as (n & Hlog & Hn); destruct Hframe as [Hdev _];
      exists n; simpl; rewrite Hlog, Hdev; simpl;
      rewrite <- app_assoc; simpl; split; trivial.
  - exists 0%nat. simpl. split; trivial.
Qed.

End CallFacts.

(** The mapping a cycle publishes holds no entry under the key "location". *)
Section LocationNeverPublished.
Context {C : Type} {api : ClientAPI C}.

Lemma discover_pure_keys st d :
  only_device_keys (snd st) → only_device_keys (snd (discover_pure st d)).
Proof.
  intros Hinv. unfold discover_pure.
  destruct (fst st !! FoundDevice.device_uuid d); simpl; [|exact Hinv].
  intros tracker_id changes. unfold AirboltCoordinator.record_change.
  destruct (decide (FoundDevice.device_uuid d = tracker_id)) as [<-|Hne].
  - rewrite lookup_insert_eq. intros [= <-].
    rewrite lookup_insert_ne by discriminate.
    destruct (snd st !! FoundDevice.device_uuid d) as [old|] eqn:Hold; simpl.
    + exact (Hinv _ _ Hold).
    + apply lookup_empty.
  - rewrite lookup_insert_ne by exact Hne. apply Hinv.
Qed.

Lemma discovery_keys ds : ∀ st,
  only_device_keys (snd st) →
  only_device_keys (snd (fold_left discover_pure ds st)).
Proof.
  induction ds as [|d ds IH]; intros st Hinv; simpl; [exact Hinv|].
  apply IH, discover_pure_keys, Hinv.
Qed.

Lemma published_mapping_has_no_location order contexts (hub : Hub.t C) :
  match AirboltCoordinator._async_update_data order contexts hub with
  | Some (Ok data, _) => only_device_keys data
  | _ => True
  end.
Proof.
  unfold AirboltCoordinator._async_update_data, try_except.
  rewrite update_body_run.
  destruct (client_find_devices (Hub._client hub)) as [[[discovered|e] c']|];
    simpl; trivial.
  match goal with
  | |- context [for_fold ?ids ?d ?f ?h] =>
      pose proof (refresh_loop_frame ids d h) as Hframe;
      destruct (for_fold ids d f h) as [[[data'|exc] hub']|]; simpl; trivial
  end.
  destruct Hframe as [_ ->].
  apply discovery_keys. intros tracker_id changes. simpl.
  now rewrite lookup_empty.
Qed.

End LocationNeverPublished.

(** ** Coordinator: the claims *)

(** C2, at the input where the code departs from it.  The tracker "abc123"
    is registered and listened to, and its history page reports success
    with one entry: the cycle looks up [update] on the Tracker, which has no
    such attribute, and fails with UpdateFailed; [update_location] is not
    called (the Tracker still has no report) and nothing is published. *)
Theorem refresh_of_a_listening_tracker_fails (order : SetOrder) :
  let hub := Sample.hub (Sample.client_logged_in (Sample.remote_healthy "no-devices"))
               {["abc123" := Sample.tracker_abc123]} in
  match AirboltCoordinator._async_update_data (api := Sample.api 3) order
          ["abc123"] hub with
  | Some (r, hub') =>
      r = Err (UpdateFailed "Error communicating with API" (AttributeError "update"))
      ∧ Hub._devices hub' = Hub._devices hub
      ∧ AirboltClient.trace (Hub._client hub')
        = [AirboltClient.Sent
             (Sample.get_request
                "devices/find/646805c7b91db16459331694?page=0&perPage=999"
                Sample.headers_fresh);
           AirboltClient.Sent
             (Sample.get_request "history/find/device/abc123?page=1&perPage=1"
                Sample.headers_fresh)]
  | None => False
  end.
Proof.
  unfold AirboltCoordinator._async_update_data, AirboltCoordinator.update_body.
  rewrite set_iter_singleton. vm_compute. repeat split.
Qed.

Section CycleOutcome.
Context {C : Type} {api : ClientAPI C}.
Implicit Types (hub : Hub.t C) (data : gmap string (gmap string bool)).

(** Ids whose pages report no success are passed over: the loop goes on
    with the client they left. *)
Lemma refresh_loop_skips pre : ∀ rest data hub c',
  pages_without_report (Hub._devices hub) pre (Hub._client hub) c' →
  for_fold (pre ++ rest)%list data AirboltCoordinator.refresh_location hub
  = for_fold rest data AirboltCoordinator.refresh_location (Hub.set_client c' hub).
Proof.
  induction pre as [|tracker_id pre IH]; intros rest data hub c' Hpages.
  - simpl in Hpages. subst c'. destruct hub; reflexivity.
  - destruct Hpages as (tracker & page & c1 & Hlook & Hpage & Hsucc & Hpages).
    simpl. unfold bind at 1. rewrite refresh_location_run, Hlook, Hpage, Hsucc.
    rewrite (IH rest data (Hub.set_client c1 hub) c') by exact Hpages.
    reflexivity.
Qed.

(** The [try] block up to the listening id [tracker_id]. *)
Lemma update_body_at order contexts hub discovered c1 pre tracker_id post c2 :
  client_find_devices (Hub._client hub) = Some (Ok discovered, c1) →
  set_iter order contexts = (pre ++ tracker_id :: post)%list →
  let st := fold_left discover_pure discovered (Hub._devices hub, ∅) in
  pages_without_report (fst st) pre c1 c2 →
  AirboltCoordinator.update_body order contexts hub
  = (data' <- AirboltCoordinator.refresh_location tracker_id (snd st) ;;
     for_fold post data' AirboltCoordinator.refresh_location)
      (Hub.set_client c2 (Hub.with_devices (fst st) hub)).
Proof.
  intros Hfind Hiter st Hpages.
  rewrite update_body_run, Hfind, Hiter. cbv zeta. fold st.
  rewrite (refresh_loop_skips pre (tracker_id :: post) (snd st)
             (Hub.with_devices (fst st) (Hub.set_client c1 hub)) c2)
    by exact Hpages.
  reflexivity.
Qed.

End CycleOutcome.

(** C8: a refresh cycle lets no failure pass and raises nothing but
    UpdateFailed.  An exception of [find_devices] (the network, the status
    of the response, the validation of the body) ends the cycle in
    UpdateFailed with that exception as cause.  So does, at the first
    listening id that is not passed over, the KeyError of an id the registry
    lacks, an exception of [get_device_history_page], and the failure that
    follows a page reporting success; here [pre] are the listening ids
    iterated before it, whatever the iteration order of the set.  When every
    listening id is passed over the cycle returns the mapping of the
    discovery loop.  An exception that leaves the cycle is an UpdateFailed
    whose cause the [try] block raised; exceptions are the instances of
    [Exception], the class the handler names.  The coordinator retries nothing:
    with a client that keeps its calls, a cycle awaits [find_devices] once
    and then one history page (page 1, size 1) for each id of an initial
    part of the iteration, in which every listening id occurs once. *)
Theorem every_cycle_exception_becomes_UpdateFailed
    {C : Type} (api : ClientAPI C) (order : SetOrder) (contexts : list string)
    (hub : Hub.t C) (calls : list ClientCall) :
  (∀ (e : exn) (c1 : C),
     client_find_devices (Hub._client hub) = Some (Err e, c1) →
     AirboltCoordinator._async_update_data order contexts hub
     = Some (Err (update_failed e), Hub.set_client c1 hub))
  ∧ (∀ (discovered : list FoundDevice.t) (c1 c2 : C),
       client_find_devices (Hub._client hub) = Some (Ok discovered, c1) →
       let st := fold_left discover_pure discovered (Hub._devices hub, ∅) in
       (∀ (pre post : list string) (tracker_id : string),
          set_iter order contexts = (pre ++ tracker_id :: post)%list →
          pages_without_report (fst st) pre c1 c2 →
          (fst st !! tracker_id = None →
           AirboltCoordinator._async_update_data order contexts hub
           = Some (Err (update_failed (KeyError tracker_id)),
                   Hub.set_client c2 (Hub.with_devices (fst st) hub)))
          ∧ (∀ (tracker : Tracker.t) (c3 : C),
               fst st !! tracker_id = Some tracker →
               (∀ e : exn,
                  client_get_device_history_page (Tracker.id tracker) 1 1 c2
                  = Some (Err e, c3) →
                  AirboltCoordinator._async_update_data order contexts hub
                  = Some (Err (update_failed e),
                          Hub.set_client c3 (Hub.with_devices (fst st) hub)))
               ∧ (∀ page : DeviceHistoryPage.t,
                    client_get_device_history_page (Tracker.id tracker) 1 1 c2
                    = Some (Ok page, c3) →
                    DeviceHistoryPage.success page = true →
                    AirboltCoordinator._async_update_data order contexts hub
                    = Some (Err (update_failed (AttributeError "update")),
                            Hub.set_client c3 (Hub.with_devices (fst st) hub)))))
       ∧ (pages_without_report (fst st) (set_iter order contexts) c1 c2 →
          AirboltCoordinator._async_update_data order contexts hub
          = Some (Ok (snd st), Hub.set_client c2 (Hub.with_devices (fst st) hub))))
  ∧ (∀ (exc : exn) (hub' : Hub.t C),
       AirboltCoordinator._async_update_data order contexts hub
       = Some (Err exc, hub') →
       ∃ cause : exn,
         exc = update_failed cause
         ∧ AirboltCoordinator.update_body order contexts hub
           = Some (Err cause, hub'))
  ∧ NoDup (set_iter order contexts)
  ∧ (∀ tracker_id : string, tracker_id ∈ set_iter order contexts ↔ tracker_id ∈ contexts)
  ∧ match AirboltCoordinator._async_update_data (api := logged api) order contexts
            (with_call_log hub calls) with
    | None => True
    | Some (r, hub') =>
        ∃ n : nat,
          snd (Hub._client hub')
          = (calls ++ CallFindDevices
               :: omap (history_call (Hub._devices hub'))
                    (take n (set_iter order contexts)))%list
          ∧ match r with
            | Ok _ => n = length (set_iter order contexts)
            | Err _ => True
            end
    end.
Proof.
  split; [|split; [|split; [|split; [|split]]]].
  - intros e c1 Hfind.
    unfold AirboltCoordinator._async_update_data, try_except.
    now rewrite update_body_run, Hfind.
  - intros discovered c1 c2 Hfind st. split.
    + intros pre post tracker_id Hiter Hpages.
      pose proof (update_body_at order contexts hub discovered c1 pre tracker_id
                    post c2 Hfind Hiter Hpages) as Hbody.
      unfold AirboltCoordinator._async_update_data, try_except.
      rewrite Hbody. unfold bind. rewrite refresh_location_run. simpl. fold st.
      split; [|intros tracker c3 Hlook; split].
      * intros Hlook. now rewrite Hlook.
      * intros e Hpage. now rewrite Hlook, Hpage.
      * intros page Hpage Hsucc. now rewrite Hlook, Hpage, Hsucc.
    + intros Hpages.
      unfold AirboltCoordinator._async_update_data, try_except.
      rewrite update_body_run, Hfind. cbv zeta. fold st.
      rewrite <- (app_nil_r (set_iter order contexts)).
      rewrite (refresh_loop_skips (set_iter order contexts) [] (snd st)
                 (Hub.with_devices (fst st) (Hub.set_client c1 hub)) c2)
        by exact Hpages.
      reflexivity.
  - intros exc hub' Hcycle.
    unfold AirboltCoordinator._async_update_data, try_except in Hcycle.
    destruct (AirboltCoordinator.update_body order contexts hub)
      as [[[data|cause] hub1]|]; try discriminate.
    injection Hcycle as <- <-. exists cause. split; reflexivity.
  - apply set_iter_NoDup.
  - apply set_iter_elem.
  - apply cycle_calls.
Qed.

(** Three cycles that fail: the transport fails on the device listing; the
    listing does not validate; the tracker "abc123" is listened to and its
    page reports success. *)
Lemma every_cycle_exception_becomes_UpdateFailed_witness :
  let cycle remote devices contexts :=
    fst <$> AirboltCoordinator._async_update_data (api := Sample.api 3)
              Sample.set_order contexts
              (Sample.hub (Sample.client_logged_in remote) devices) in
  cycle (fun _ _ => AirboltClient.Fails ClientConnectionError) ∅ []
  = Some (Err (update_failed ClientConnectionError))
  ∧ cycle (Sample.remote_healthy "{}") ∅ []
    = Some (Err (update_failed ValidationError))
  ∧ cycle (Sample.remote_healthy "no-devices")
      {["abc123" := Sample.tracker_abc123]} ["abc123"]
    = Some (Err (update_failed (AttributeError "update"))).
Proof.
  intros cycle.
  set (listing := "devices/find/646805c7b91db16459331694?page=0&perPage=999").
  set (after remote :=
         client_after_request Sample.urljoin (Sample.client_logged_in remote)
           AirboltClient.GET listing []).
  split; [|split]; unfold cycle.
  - set (remote := fun (_ : list AirboltClient.Event) (_ : AirboltClient.Request) =>
                     AirboltClient.Fails ClientConnectionError).
    destruct (every_cycle_exception_becomes_UpdateFailed (Sample.api 3)
                Sample.set_order []
                (Sample.hub (Sample.client_logged_in remote) ∅) [])
      as (Hlisting & _).
    now rewrite (Hlisting ClientConnectionError (after remote) eq_refl).
  - destruct (every_cycle_exception_becomes_UpdateFailed (Sample.api 3)
                Sample.set_order []
                (Sample.hub (Sample.client_logged_in (Sample.remote_healthy "{}")) ∅)
                [])
      as (Hlisting & _).
    now rewrite (Hlisting ValidationError (after (Sample.remote_healthy "{}"))
                   eq_refl).
  - set (remote := Sample.remote_healthy "no-devices").
    destruct (every_cycle_exception_becomes_UpdateFailed (Sample.api 3)
                Sample.set_order ["abc123"]
                (Sample.hub (Sample.client_logged_in remote)
                   {["abc123" := Sample.tracker_abc123]}) [])
      as (_ & Hloop & _).
    destruct (Hloop [] (after remote) (after remote) eq_refl) as [Hat _].
    destruct (Hat [] [] "abc123" eq_refl eq_refl) as [_ Hknown].
    destruct (Hknown Sample.tracker_abc123
                (client_after_request Sample.urljoin (after remote) AirboltClient.GET
                   "history/find/device/abc123?page=1&perPage=1" [])
                eq_refl) as [_ Hsuccess].
    now rewrite (Hsuccess (Sample.page true
                             [Sample.entry 1684861091000000 Sample.float_10
                                Sample.float_807_957])
                   eq_refl eq_refl).
Defined.

Section FirstAppearance.
Implicit Types (st : gmap string Tracker.t * gmap string (gmap string bool)).











End FirstAppearance.




(** ** Further facts and the scenarios of the specification *)

(** [_login] turns an exception of the client into InvalidCredentials only
    when it is an [aiohttp.web.HTTPClientError]; any other one passes. *)
Lemma _login_maps_only_HTTPClientError
    {C : Type} (api : ClientAPI C) (username password : string) (hub : Hub.t C) :
  Hub._login username password hub
  = match client_login username password (Hub._client hub) with
    | None => None
    | Some (Ok user, c') => Some (Ok tt, Hub.set_user user (Hub.set_client c' hub))
    | Some (Err (HTTPClientError status), c') =>
        Some (Err (InvalidCredentials (HTTPClientError status)),
              Hub.set_client c' hub)
    | Some (Err exc, c') => Some (Err exc, Hub.set_client c' hub)
    end.
Proof.
  unfold Hub._login, try_except, bind. rewrite await_client_run.
  destruct (client_login username password (Hub._client hub))
    as [[[user|exc] c']|]; try reflexivity.
  destruct exc; reflexivity.
Qed.

(** A first report at T1, the same report again, then a report at T2. *)
Lemma update_location_scenario :
  let e1 := Sample.entry 1684861091000000 Sample.float_10 Sample.float_807_957 in
  let e2 := Sample.entry 1684861391000000 Sample.float_11 Sample.float_807_957 in
  let s1 := Tracker.update_location Sample.tracker_abc123 e1 in
  let s2 := Tracker.update_location (fst s1) e1 in
  let s3 := Tracker.update_location (fst s2) e2 in
  Tracker.latitude Sample.tracker_abc123 = Err MissingDataError
  ∧ (snd s1 = true ∧ Tracker.latitude (fst s1) = Ok Sample.float_10)
  ∧ (snd s2 = false ∧ Tracker.latitude (fst s2) = Ok Sample.float_10)
  ∧ (snd s3 = true ∧ Tracker.latitude (fst s3) = Ok Sample.float_11).
Proof. repeat split. Qed.

(** A cycle that discovers "abc123" registers a Tracker without a report
    and publishes nothing for it. *)
Lemma first_discovery_scenario :
  match AirboltCoordinator._async_update_data (api := Sample.api 3) Sample.set_order []
          (Sample.hub (Sample.client_logged_in (Sample.remote_healthy "one-device")) ∅)
  with
  | Some (r, hub') =>
      r = Ok ∅
      ∧ Hub._devices hub' !! "abc123" = Some Sample.tracker_abc123
      ∧ Tracker.latitude Sample.tracker_abc123 = Err MissingDataError
  | None => False
  end.
Proof. vm_compute. repeat split. Qed.

(** [start] logs in, discovers the device and seeds it with its last report. *)
Lemma start_scenario :
  match Hub.start (api := Sample.api 3) "user" "secret"
          (Hub.mk (AirboltClient.__init__ (Sample.remote_healthy "one-device"))
                  None ∅)
  with
  | Some (r, hub') =>
      r = Ok tt
      ∧ (Tracker.latitude <$> Hub._devices hub' !! "abc123")
        = Some (Ok Sample.float_10)
      ∧ (Tracker.accuracy <$> Hub._devices hub' !! "abc123") = Some (Ok 807)
  | None => False
  end.
Proof. vm_compute. repeat split. Qed.

(** * Further properties of the code *)

(** ** Tracker *)

Section TrackerMore.
Implicit Types (self : Tracker.t) (d : FoundDevice.t) (e : HistoryEntry.t).

Lemma update_device_name_model self d :
  Tracker._name (fst (Tracker.update_device self d)) = FoundDevice.name d
  ∧ Tracker._model (fst (Tracker.update_device self d)) = FoundDevice.device_type d.
Proof.
  unfold Tracker.update_device.
  destruct (bool_decide_reflect (Tracker._name self = FoundDevice.name d));
    destruct (bool_decide_reflect (Tracker._model self = FoundDevice.device_type d));
    simpl; auto.
Qed.

Lemma update_location_fields self e :
  Tracker._id (fst (Tracker.update_location self e)) = Tracker._id self
  ∧ Tracker._name (fst (Tracker.update_location self e)) = Tracker._name self
  ∧ Tracker._model (fst (Tracker.update_location self e)) = Tracker._model self.
Proof.
  destruct (update_location_cases self e) as [[-> _] | [-> _]]; simpl; auto.
Qed.

Lemma fold_calls_id calls : ∀ self,
  Tracker._id (fold_left apply_call calls self) = Tracker._id self.
Proof.
  induction calls as [|c calls IH]; intros self; simpl; [reflexivity|].
  rewrite IH. destruct c as [d|e]; simpl.
  - apply update_device_id.
  - apply update_location_fields.
Qed.

Lemma fold_calls_name_model calls : ∀ self d,
  Tracker._name self = FoundDevice.name d →
  Tracker._model self = FoundDevice.device_type d →
  Tracker._name (fold_left apply_call calls self)
  = FoundDevice.name (last_device d calls)
  ∧ Tracker._model (fold_left apply_call calls self)
    = FoundDevice.device_type (last_device d calls).
Proof.
  unfold last_device.
  induction calls as [|c calls IH]; intros self d Hn Hm; simpl; [auto|].
  destruct c as [d'|e]; simpl.
  - apply IH; apply update_device_name_model.
  - destruct (update_location_fields self e) as (_ & Hn' & Hm').
    apply IH; congruence.
Qed.

Lemma fold_calls_report_origin calls : ∀ self,
  match Tracker._last_report (fold_left apply_call calls self) with
  | Some r => In (CallUpdateLocation r) calls ∨ Tracker._last_report self = Some r
  | None => Tracker._last_report self = None
  end.
Proof.
  induction calls as [|c calls IH]; intros self; simpl.
  - destruct (Tracker._last_report self); auto.
  - specialize (IH (apply_call self c)).
    destruct (Tracker._last_report (fold_left apply_call calls (apply_call self c)))
      as [r|].
    + destruct IH as [Hin|Hr]; [auto|].
      destruct c as [d|e]; simpl in Hr.
      * rewrite update_device_last_report in Hr. auto.
      * destruct (update_location_cases self e) as [[Heq _] | [Heq _]];
          rewrite Heq in Hr; simpl in Hr; [auto|].
        injection Hr as <-. auto.
    + destruct c as [d|e]; simpl in IH.
      * now rewrite update_device_last_report in IH.
      * pose proof (update_location_last_report_is_Some self e) as [r Hr].
        congruence.
Qed.

End TrackerMore.

Lemma init_fields (discovered : FoundDevice.t) :
  Tracker.__init__ discovered
  = {| Tracker._id := FoundDevice.device_uuid discovered;
       Tracker._name := FoundDevice.name discovered;
       Tracker._model := FoundDevice.device_type discovered;
       Tracker._last_report := None |}.
Proof.
  unfold Tracker.__init__, Tracker.update_device. simpl.
  destruct (bool_decide_reflect ("" = FoundDevice.name discovered)) as [Hn|Hn];
    destruct (bool_decide_reflect ("" = FoundDevice.device_type discovered))
      as [Hm|Hm]; simpl; try reflexivity.
  now rewrite <- Hn, <- Hm.
Qed.

(** X1: a Tracker as constructed has the uuid of the discovered device as
    its id, that device's name and type as name and model, and no report,
    also when the name and the type are the empty strings it starts from. *)
Theorem fresh_tracker_fields (discovered : FoundDevice.t) :
  Tracker.id (Tracker.__init__ discovered) = FoundDevice.device_uuid discovered
  ∧ Tracker.name (Tracker.__init__ discovered) = FoundDevice.name discovered
  ∧ Tracker._model (Tracker.__init__ discovered)
    = FoundDevice.device_type discovered
  ∧ Tracker._last_report (Tracker.__init__ discovered) = None
  ∧ Tracker.latitude (Tracker.__init__ discovered) = Err MissingDataError.
Proof. rewrite init_fields. repeat split. Qed.

(** X2: [update_device] is idempotent: called again with the same record it
    reports no change and leaves the Tracker as it is. *)
Theorem update_device_twice (self : Tracker.t) (discovered : FoundDevice.t) :
  Tracker.update_device (fst (Tracker.update_device self discovered)) discovered
  = (fst (Tracker.update_device self discovered), false).
Proof.
  destruct (update_device_name_model self discovered) as [Hn Hm].
  unfold Tracker.update_device at 1.
  now rewrite !bool_decide_eq_true_2 by assumption.
Qed.

(** X3: once [update_location] has returned true, the properties read back
    the entry just given: latitude, longitude, address, alert type, report
    time and modem temperature are those of that entry. *)
Theorem update_location_read_back (self : Tracker.t) (entry : HistoryEntry.t) :
  snd (Tracker.update_location self entry) = true →
  let self' := fst (Tracker.update_location self entry) in
  Tracker.latitude self' = Ok (HistoryEntry.latitude entry)
  ∧ Tracker.longitude self' = Ok (HistoryEntry.longitude entry)
  ∧ Tracker.address self' = Ok (HistoryEntry.address entry)
  ∧ Tracker.alert_type self' = Ok (ReportType_str (HistoryEntry.alert_type entry))
  ∧ Tracker.last_report_time self' = Ok (HistoryEntry.time_created entry)
  ∧ Tracker.modem_temperature self' = Ok (HistoryEntry.modem_temperature entry).
Proof.
  destruct (update_location_cases self entry) as [[-> _] | [-> _]]; simpl.
  - discriminate.
  - intros _. repeat split.
Qed.

Lemma update_location_read_back_witness :
  Tracker.latitude
    (fst (Tracker.update_location Sample.tracker_abc123
            (Sample.entry 1 Sample.float_11 Sample.float_807_957)))
  = Ok Sample.float_11.
Proof.
  apply (update_location_read_back Sample.tracker_abc123
           (Sample.entry 1 Sample.float_11 Sample.float_807_957)).
  reflexivity.
Defined.

(** X4: whatever calls a Tracker receives after its construction, its id
    stays the uuid it was built from, its name and model are those of the
    last record given to [update_device] (of the construction, if none),
    and a stored report is one of the entries given to [update_location]. *)
Theorem tracker_state_after_calls
    (discovered : FoundDevice.t) (calls : list TrackerCall) :
  let self := tracker_after discovered calls in
  Tracker.id self = FoundDevice.device_uuid discovered
  ∧ Tracker.name self = FoundDevice.name (last_device discovered calls)
  ∧ Tracker._model self = FoundDevice.device_type (last_device discovered calls)
  ∧ match Tracker._last_report self with
    | Some r => In (CallUpdateLocation r) calls
    | None => existsb is_location_call calls = false
    end.
Proof.
  intros self. subst self. unfold tracker_after, Tracker.id, Tracker.name.
  rewrite fold_calls_id, init_fields. simpl.
  split; [reflexivity|].
  destruct (fold_calls_name_model calls
              {| Tracker._id := FoundDevice.device_uuid discovered;
                 Tracker._name := FoundDevice.name discovered;
                 Tracker._model := FoundDevice.device_type discovered;
                 Tracker._last_report := None |} discovered eq_refl eq_refl)
    as [Hn Hm].
  split; [exact Hn|]. split; [exact Hm|].
  pose proof (fold_calls_report_origin calls
                {| Tracker._id := FoundDevice.device_uuid discovered;
                   Tracker._name := FoundDevice.name discovered;
                   Tracker._model := FoundDevice.device_type discovered;
                   Tracker._last_report := None |}) as Horigin.
  pose proof (fold_calls_report calls
                {| Tracker._id := FoundDevice.device_uuid discovered;
                   Tracker._name := FoundDevice.name discovered;
                   Tracker._model := FoundDevice.device_type discovered;
                   Tracker._last_report := None |}) as Hreport.
  destruct (Tracker._last_report (fold_left apply_call calls _)) as [r|].
  - destruct Horigin as [Hin|Hr]; [exact Hin | discriminate].
  - destruct (existsb is_location_call calls); [|reflexivity].
    destruct Hreport as [r Hr]. discriminate.
Qed.

(** X5: a stored accuracy that is not zero but smaller than one in
    magnitude reads as 0, not as the default: for a finite value
    (-1)^s * m * 2^e, [accuracy] is 0 exactly when m * 2^e < 1. *)
Theorem accuracy_below_one_reads_zero
    (self : Tracker.t) (report : HistoryEntry.t) (s : bool) (m : positive) (e : Z) :
  Tracker._last_report self = Some report →
  HistoryEntry.accuracy report = S754_finite s m e →
  (Tracker.accuracy self = Ok 0 ↔ (e < 0 ∧ Z.pos m < 2 ^ (- e))%Z).
Proof.
  intros Hr Ha. unfold Tracker.accuracy, Tracker.last_report_or_raise.
  rewrite Hr, Ha. simpl.
  destruct (Z.leb_spec 0 e) as [He|He].
  - rewrite Z.shiftl_mul_pow2 by exact He.
    assert (0 < 2 ^ e)%Z by (apply Z.pow_pos_nonneg; lia).
    split.
    + intros [= Hz]. destruct s; nia.
    + intros [Hneg _]. lia.
  - rewrite Z.shiftl_div_pow2 by lia.
    assert (Hpow : (0 < 2 ^ (- e))%Z) by (apply Z.pow_pos_nonneg; lia).
    split.
    + intros [= Hz]. split; [exact He|].
      assert (Hq : (Z.pos m / 2 ^ (- e) = 0)%Z) by (destruct s; lia).
      apply Z.div_small_iff in Hq; lia.
    + intros [_ Hlt]. rewrite Z.div_small by lia. now destruct s.
Qed.

Lemma accuracy_below_one_reads_zero_witness :
  Tracker.accuracy
    (fst (Tracker.update_location Sample.tracker_abc123
            (Sample.entry 1 Sample.float_10
               (S754_finite false 4503599627370496 (-53)))))
  = Ok 0.
Proof.
  apply (accuracy_below_one_reads_zero _
           (Sample.entry 1 Sample.float_10 (S754_finite false 4503599627370496 (-53)))
           false 4503599627370496 (-53)).
  - reflexivity.
  - reflexivity.
  - split; [lia | reflexivity].
Defined.

(** X6: the device descriptor links entities by the pair of the domain and
    the uuid the Tracker was built from, with or without [parent] and
    whatever calls the Tracker received since; only the [parent] form
    carries the current name and model. *)
Theorem device_info_identifiers_are_stable
    (DOMAIN : string) (discovered : FoundDevice.t) (calls : list TrackerCall)
    (parent : bool) :
  let info := Tracker.build_device_info DOMAIN (tracker_after discovered calls) parent in
  DeviceInfo.identifiers info = {[(DOMAIN, FoundDevice.device_uuid discovered)]}
  ∧ DeviceInfo.manufacturer info = Some "Airbolt"
  ∧ DeviceInfo.name info
    = (if parent then Some (FoundDevice.name (last_device discovered calls))
       else None)
  ∧ DeviceInfo.model info
    = (if parent then Some (FoundDevice.device_type (last_device discovered calls))
       else None).
Proof.
  intros info. subst info. unfold tracker_after, Tracker.build_device_info.
  pose proof (fold_calls_id calls (Tracker.__init__ discovered)) as Hid.
  destruct (fold_calls_name_model calls (Tracker.__init__ discovered) discovered)
    as [Hn Hm]; [now rewrite init_fields | now rewrite init_fields |].
  rewrite init_fields in Hid at 2. simpl in Hid.
  destruct parent; simpl; rewrite Hid; unfold Tracker.name;
    rewrite ?Hn, ?Hm; repeat split.
Qed.

(** ** AirboltClient *)

Section ClientMore.
Variable urljoin : string -> string -> string.
Variable parse_LoginResult : string -> option LoginResult.t.

Lemma session_request_run m u body self :
  AirboltClient.session_request m u body self
  = match AirboltClient.server self (AirboltClient.trace self)
            (AirboltClient.mkRequest m u body (AirboltClient.session_headers self)) with
    | AirboltClient.Responds r =>
        Some (Ok r,
              AirboltClient.log_event
                (AirboltClient.Sent
                   (AirboltClient.mkRequest m u body
                      (AirboltClient.session_headers self))) self)
    | AirboltClient.Fails e =>
        Some (Err e,
              AirboltClient.log_event
                (AirboltClient.Sent
                   (AirboltClient.mkRequest m u body
                      (AirboltClient.session_headers self))) self)
    end.
Proof. reflexivity. Qed.

(** What a response other than 401 makes of a call. *)
Lemma final_status_outcome (response : AirboltClient.Response) (self : AirboltClient.t) :
  AirboltClient.status response ≠ 401 →
  (if (AirboltClient.status response =? 200)%Z
   then ret (AirboltClient.text response)
   else (AirboltClient.raise_for_status response ;;; ret "")) self
  = Some (if (AirboltClient.status response =? 200)%Z
          then Ok (AirboltClient.text response)
          else if (400 <=? AirboltClient.status response)%Z
               then Err (ClientResponseError (AirboltClient.status response))
               else Ok "",
          self).
Proof.
  intros _. destruct (AirboltClient.status response =? 200)%Z; [reflexivity|].
  unfold bind, AirboltClient.raise_for_status.
  destruct (400 <=? AirboltClient.status response)%Z; reflexivity.
Qed.

Lemma _get_final_status fuel path self response :
  AirboltClient.server self (AirboltClient.trace self)
    (AirboltClient.mkRequest AirboltClient.GET
       (urljoin AirboltClient.BASE_URL path) []
       (AirboltClient.session_headers self))
  = AirboltClient.Responds response →
  AirboltClient.status response ≠ 401 →
  AirboltClient._get urljoin parse_LoginResult (S fuel) path self
  = Some (if (AirboltClient.status response =? 200)%Z
          then Ok (AirboltClient.text response)
          else if (400 <=? AirboltClient.status response)%Z
               then Err (ClientResponseError (AirboltClient.status response))
               else Ok "",
          AirboltClient.log_event
            (AirboltClient.Sent
               (AirboltClient.mkRequest AirboltClient.GET
                  (urljoin AirboltClient.BASE_URL path) []
                  (AirboltClient.session_headers self))) self).
Proof.
  intros Hserver Hne. unfold AirboltClient._get. simpl.
  unfold bind at 1. rewrite session_request_run, Hserver.
  rewrite <- (final_status_outcome response _ Hne).
  destruct (AirboltClient.status response =? 200)%Z eqn:H200; [reflexivity|].
  rewrite (proj2 (Z.eqb_neq _ _) Hne). rewrite _get_loop_done. reflexivity.
Qed.

Lemma _post_final_status fuel path body self response :
  AirboltClient.server self (AirboltClient.trace self)
    (AirboltClient.mkRequest AirboltClient.POST
       (urljoin AirboltClient.BASE_URL path) body
       (AirboltClient.session_headers self))
  = AirboltClient.Responds response →
  AirboltClient.status response ≠ 401 →
  AirboltClient._post urljoin parse_LoginResult (S fuel) path body self
  = Some (if (AirboltClient.status response =? 200)%Z
          then Ok (AirboltClient.text response)
          else if (400 <=? AirboltClient.status response)%Z
               then Err (ClientResponseError (AirboltClient.status response))
               else Ok "",
          AirboltClient.log_event
            (AirboltClient.Sent
               (AirboltClient.mkRequest AirboltClient.POST
                  (urljoin AirboltClient.BASE_URL path) body
                  (AirboltClient.session_headers self))) self).
Proof.
  intros Hserver Hne. unfold AirboltClient._post. simpl.
  unfold bind at 1. rewrite session_request_run, Hserver.
  rewrite <- (final_status_outcome response _ Hne).
  destruct (AirboltClient.status response =? 200)%Z eqn:H200; [reflexivity|].
  rewrite (proj2 (Z.eqb_neq _ _) Hne). rewrite _post_loop_done. reflexivity.
Qed.

Lemma _get_transport_failure fuel path self e :
  AirboltClient.server self (AirboltClient.trace self)
    (AirboltClient.mkRequest AirboltClient.GET
       (urljoin AirboltClient.BASE_URL path) []
       (AirboltClient.session_headers self))
  = AirboltClient.Fails e →
  AirboltClient._get urljoin parse_LoginResult (S fuel) path self
  = Some (Err e,
          AirboltClient.log_event
            (AirboltClient.Sent
               (AirboltClient.mkRequest AirboltClient.GET
                  (urljoin AirboltClient.BASE_URL path) []
                  (AirboltClient.session_headers self))) self).
Proof.
  intros Hserver. unfold AirboltClient._get. simpl.
  unfold bind at 1. now rewrite session_request_run, Hserver.
Qed.

Lemma _post_transport_failure fuel path body self e :
  AirboltClient.server self (AirboltClient.trace self)
    (AirboltClient.mkRequest AirboltClient.POST
       (urljoin AirboltClient.BASE_URL path) body
       (AirboltClient.session_headers self))
  = AirboltClient.Fails e →
  AirboltClient._post urljoin parse_LoginResult (S fuel) path body self
  = Some (Err e,
          AirboltClient.log_event
            (AirboltClient.Sent
               (AirboltClient.mkRequest AirboltClient.POST
                  (urljoin AirboltClient.BASE_URL path) body
                  (AirboltClient.session_headers self))) self).
Proof.
  intros Hserver. unfold AirboltClient._post. simpl.
  unfold bind at 1. now rewrite session_request_run, Hserver.
Qed.

End ClientMore.

(** X7: a GET or POST whose response has any status but 401 costs one
    request and nothing else: 200 returns the body, a status of 400 or
    above raises ClientResponseError with that status, and any other status
    returns the empty string.  The request goes to the URL that [urljoin]
    makes of the base and the path, whatever that is. *)
Theorem request_with_final_status
    (urljoin : string -> string -> string)
    (parse_LoginResult : string -> option LoginResult.t) (fuel : nat)
    (m : AirboltClient.Method) (path : string) (body : list (string * string))
    (self : AirboltClient.t) (response : AirboltClient.Response) :
  AirboltClient.server self (AirboltClient.trace self)
    (client_request urljoin self m path (match m with
                                 | AirboltClient.GET => []
                                 | AirboltClient.POST => body
                                 end))
  = AirboltClient.Responds response →
  AirboltClient.status response ≠ 401 →
  match m with
  | AirboltClient.GET => AirboltClient._get urljoin parse_LoginResult (S fuel) path self
  | AirboltClient.POST => AirboltClient._post urljoin parse_LoginResult (S fuel) path body self
  end
  = Some (final_outcome response,
          client_after_request urljoin self m path
            (match m with AirboltClient.GET => [] | AirboltClient.POST => body end)).
Proof.
  intros Hserver Hne. destruct m.
  - now apply _get_final_status.
  - now apply _post_final_status.
Qed.

Lemma request_with_final_status_witness :
  fst <$> AirboltClient._get Sample.urljoin Sample.parse_LoginResult 1 "users/me"
            (Sample.client_with_credentials (Sample.remote_always 403))
  = Some (Err (ClientResponseError 403))
  ∧ fst <$> AirboltClient._post Sample.urljoin Sample.parse_LoginResult 1 "login" []
              (Sample.client_with_credentials (Sample.remote_always 204))
    = Some (Ok "").
Proof.
  split.
  - rewrite (request_with_final_status Sample.urljoin Sample.parse_LoginResult 0 AirboltClient.GET
               "users/me" []
               (Sample.client_with_credentials (Sample.remote_always 403))
               (AirboltClient.mkResponse 403 ""));
      [reflexivity | reflexivity | discriminate].
  - rewrite (request_with_final_status Sample.urljoin Sample.parse_LoginResult 0 AirboltClient.POST
               "login" []
               (Sample.client_with_credentials (Sample.remote_always 204))
               (AirboltClient.mkResponse 204 ""));
      [reflexivity | reflexivity | discriminate].
Defined.

(** X8: when the transport fails on the request for the URL that
    [urljoin] makes of the base and the path, its exception reaches the
    caller after that one request, with no sleep and no login. *)
Theorem request_with_transport_failure
    (urljoin : string -> string -> string)
    (parse_LoginResult : string -> option LoginResult.t) (fuel : nat)
    (m : AirboltClient.Method) (path : string) (body : list (string * string))
    (self : AirboltClient.t) (e : exn) :
  AirboltClient.server self (AirboltClient.trace self)
    (client_request urljoin self m path (match m with
                                 | AirboltClient.GET => []
                                 | AirboltClient.POST => body
                                 end))
  = AirboltClient.Fails e →
  match m with
  | AirboltClient.GET => AirboltClient._get urljoin parse_LoginResult (S fuel) path self
  | AirboltClient.POST => AirboltClient._post urljoin parse_LoginResult (S fuel) path body self
  end
  = Some (Err e,
          client_after_request urljoin self m path
            (match m with AirboltClient.GET => [] | AirboltClient.POST => body end)).
Proof.
  intros Hserver. destruct m.
  - now apply _get_transport_failure.
  - now apply _post_transport_failure.
Qed.

Lemma request_with_transport_failure_witness :
  fst <$> AirboltClient._get Sample.urljoin Sample.parse_LoginResult 1 "users/me"
            (Sample.client_with_credentials
               (fun _ _ => AirboltClient.Fails ClientConnectionError))
  = Some (Err ClientConnectionError).
Proof.
  rewrite (request_with_transport_failure Sample.urljoin Sample.parse_LoginResult 0
             AirboltClient.GET "users/me" []
             (Sample.client_with_credentials
                (fun _ _ => AirboltClient.Fails ClientConnectionError))
             ClientConnectionError); reflexivity.
Defined.

Section PreservesFacts.
Context {S : Type} (P : S → Prop).

Lemma preserves_ret {A} (a : A) : preserves P (ret a).
Proof. intros s Hs. exact Hs. Qed.

Lemma preserves_raise {A} (e : exn) : preserves P (@raise S A e).
Proof. intros s Hs. exact Hs. Qed.

Lemma preserves_diverge {A} : preserves P (@diverge S A).
Proof. intros s Hs. exact I. Qed.

Lemma preserves_gets {A} (f : S → A) : preserves P (gets f).
Proof. intros s Hs. exact Hs. Qed.

Lemma preserves_from_option {A} (e : exn) (o : option A) :
  preserves P (from_option e o).
Proof. destruct o; [apply preserves_ret | apply preserves_raise]. Qed.

Lemma preserves_from_result {A} (r : result A) : preserves P (from_result r).
Proof. intros s Hs. exact Hs. Qed.

Lemma preserves_modify (f : S → S) :
  (∀ s, P s → P (f s)) → preserves P (modify f).
Proof. intros Hf s Hs. apply Hf, Hs. Qed.

Lemma preserves_bind {A B} (m : M S A) (k : A → M S B) :
  preserves P m → (∀ a, preserves P (k a)) → preserves P (bind m k).
Proof.
  intros Hm Hk s Hs. unfold bind. specialize (Hm s Hs).
  destruct (m s) as [[[a|e] s']|]; [apply Hk, Hm | exact Hm | exact I].
Qed.

End PreservesFacts.

(** What every method of the client keeps of a property that logging an
    event and storing a login result keep. *)
Section ClientPreserves.
Variable urljoin : string -> string -> string.
Variable parse_LoginResult : string -> option LoginResult.t.
Variable P : AirboltClient.t → Prop.
Hypothesis P_log : ∀ ev self, P self → P (AirboltClient.log_event ev self).
Hypothesis P_login : ∀ login_result self,
  P self →
  P (AirboltClient.headers_update
       [("Accept", "application/json");
        ("Authorization", LoginResult.auth_header login_result)]
       (AirboltClient.set_login_result login_result self)).

Lemma session_request_preserves m u body :
  preserves P (AirboltClient.session_request m u body).
Proof.
  intros self Hs. rewrite session_request_run.
  destruct (AirboltClient.server _ _ _); apply P_log, Hs.
Qed.

Lemma raise_for_status_preserves response :
  preserves P (AirboltClient.raise_for_status response).
Proof.
  unfold AirboltClient.raise_for_status.
  destruct (400 <=? AirboltClient.status response)%Z;
    [apply preserves_raise | apply preserves_ret].
Qed.

Lemma _reauthenticate_with_preserves post :
  (∀ path body, preserves P (post path body)) →
  preserves P (AirboltClient._reauthenticate_with parse_LoginResult post).
Proof.
  intros Hpost. unfold AirboltClient._reauthenticate_with.
  apply preserves_bind;
    [apply preserves_bind; [apply preserves_gets|intros; apply preserves_from_option]|].
  intros username. apply preserves_bind;
    [apply preserves_bind; [apply preserves_gets|intros; apply preserves_from_option]|].
  intros password. apply preserves_bind; [apply Hpost|].
  intros raw. apply preserves_bind; [apply preserves_from_option|].
  intros login_result self Hs. apply (P_login login_result self Hs).
Qed.

Lemma _post_loop_preserves fuel : ∀ path body retry response,
  preserves P (AirboltClient._post_loop urljoin parse_LoginResult fuel path body retry response).
Proof.
  assert (Hdone : ∀ response, preserves P
            (r <- from_option (UnboundLocalError "response") response ;;
             AirboltClient.raise_for_status r ;;; ret "")).
  { intros response. apply preserves_bind; [apply preserves_from_option|].
    intros r. apply preserves_bind; [apply raise_for_status_preserves|].
    intros _. apply preserves_ret. }
  induction fuel as [|fuel IH]; intros path body retry response;
    destruct retry; simpl; try apply Hdone.
  - apply preserves_diverge.
  - apply preserves_bind; [apply session_request_preserves|].
    intros r. destruct (AirboltClient.status r =? 200)%Z; [apply preserves_ret|].
    destruct (AirboltClient.status r =? 401)%Z; [|apply IH].
    apply preserves_bind; [apply preserves_modify; intros; now apply P_log|].
    intros _. apply preserves_bind; [|intros; apply IH].
    apply _reauthenticate_with_preserves. intros p b. apply IH.
Qed.

Lemma _reauthenticate_preserves fuel :
  preserves P (AirboltClient._reauthenticate urljoin parse_LoginResult fuel).
Proof.
  apply _reauthenticate_with_preserves. intros path body.
  apply _post_loop_preserves.
Qed.

Lemma _get_loop_preserves fuel : ∀ path retry response,
  preserves P (AirboltClient._get_loop urljoin parse_LoginResult fuel path retry response).
Proof.
  assert (Hdone : ∀ response, preserves P
            (r <- from_option (UnboundLocalError "response") response ;;
             AirboltClient.raise_for_status r ;;; ret "")).
  { intros response. apply preserves_bind; [apply preserves_from_option|].
    intros r. apply preserves_bind; [apply raise_for_status_preserves|].
    intros _. apply preserves_ret. }
  induction fuel as [|fuel IH]; intros path retry response;
    destruct retry; simpl; try apply Hdone.
  - apply preserves_diverge.
  - apply preserves_bind; [apply session_request_preserves|].
    intros r. destruct (AirboltClient.status r =? 200)%Z; [apply preserves_ret|].
    apply preserves_bind; [|intros; apply IH].
    destruct (AirboltClient.status r =? 401)%Z; [|apply preserves_ret].
    apply preserves_bind; [apply preserves_modify; intros; now apply P_log|].
    intros _. apply preserves_bind; [apply _reauthenticate_preserves|].
    intros _. apply preserves_ret.
Qed.

Lemma _get_preserves fuel path :
  preserves P (AirboltClient._get urljoin parse_LoginResult fuel path).
Proof. apply _get_loop_preserves. Qed.

Lemma find_devices_preserves parse_FoundDevices fuel :
  preserves P (AirboltClient.find_devices urljoin parse_LoginResult parse_FoundDevices fuel).
Proof.
  unfold AirboltClient.find_devices.
  apply preserves_bind;
    [apply preserves_bind; [apply preserves_gets|intros; apply preserves_from_option]|].
  intros login_result. apply preserves_bind; [apply _get_preserves|].
  intros raw. apply preserves_from_result.
Qed.

Lemma get_device_history_page_preserves parse_DeviceHistoryPage fuel device_uuid
      page page_size :
  preserves P (AirboltClient.get_device_history_page urljoin parse_LoginResult
                 parse_DeviceHistoryPage fuel device_uuid page page_size).
Proof.
  unfold AirboltClient.get_device_history_page.
  apply preserves_bind; [apply _get_preserves|].
  intros raw. apply preserves_from_option.
Qed.

Lemma get_user_info_preserves parse_UserInfo fuel :
  preserves P (AirboltClient.get_user_info urljoin parse_LoginResult parse_UserInfo fuel).
Proof.
  unfold AirboltClient.get_user_info.
  apply preserves_bind; [apply _get_preserves|].
  intros raw. apply preserves_from_option.
Qed.

End ClientPreserves.

Lemma _reauthenticate_with_run
    (parse_LoginResult : string -> option LoginResult.t)
    (post : string -> list (string * string) -> M AirboltClient.t string)
    (username password : string) (self : AirboltClient.t) :
  AirboltClient._username self = Some username →
  AirboltClient._password self = Some password →
  AirboltClient._reauthenticate_with parse_LoginResult post self
  = match post "login" (login_body username password) self with
    | None => None
    | Some (Err e, self') => Some (Err e, self')
    | Some (Ok raw_response, self') =>
        match parse_LoginResult raw_response with
        | None => Some (Err ValidationError, self')
        | Some login_result =>
            Some (Ok login_result,
                  AirboltClient.headers_update
                    [("Accept", "application/json");
                     ("Authorization", LoginResult.auth_header login_result)]
                    (AirboltClient.set_login_result login_result self'))
        end
    end.
Proof.
  intros Hu Hp. unfold AirboltClient._reauthenticate_with, login_body.
  cbv [bind gets]. rewrite Hu. simpl. rewrite Hp. simpl.
  destruct (post "login" _ self) as [[[raw|e] self']|]; try reflexivity.
  destruct (parse_LoginResult raw); reflexivity.
Qed.

Lemma login_run
    (urljoin : string -> string -> string)
    (parse_LoginResult : string -> option LoginResult.t) (fuel : nat)
    (username password : string) (self : AirboltClient.t) :
  AirboltClient.login urljoin parse_LoginResult fuel username password self
  = AirboltClient._reauthenticate_with parse_LoginResult
      (AirboltClient._post urljoin parse_LoginResult fuel)
      (AirboltClient.set_credentials username password self).
Proof. reflexivity. Qed.

(** X9: a login answered 200 with a body that validates sends one POST of
    the credentials and an empty two-factor code under the headers of
    before, returns the login result, and leaves the client holding the
    credentials, the result, and its auth header as Authorization. *)
Theorem login_success
    (urljoin : string -> string -> string)
    (parse_LoginResult : string -> option LoginResult.t) (fuel : nat)
    (username password : string) (self : AirboltClient.t)
    (response : AirboltClient.Response) (login_result : LoginResult.t) :
  AirboltClient.server self (AirboltClient.trace self)
    (client_request urljoin self AirboltClient.POST "login" (login_body username password))
  = AirboltClient.Responds response →
  AirboltClient.status response = 200 →
  parse_LoginResult (AirboltClient.text response) = Some login_result →
  match AirboltClient.login urljoin parse_LoginResult (S fuel) username password self with
  | Some (r, self') =>
      r = Ok login_result
      ∧ AirboltClient._username self' = Some username
      ∧ AirboltClient._password self' = Some password
      ∧ AirboltClient._login_result self' = Some login_result
      ∧ AirboltClient.session_headers self'
        = <["Authorization" := LoginResult.auth_header login_result]>
            (<["Accept" := "application/json"]> (AirboltClient.session_headers self))
      ∧ AirboltClient.trace self'
        = (AirboltClient.trace self
           ++ [AirboltClient.Sent
                 (client_request urljoin self AirboltClient.POST "login"
                    (login_body username password))])%list
  | None => False
  end.
Proof.
  intros Hserver H200 Hparse.
  rewrite login_run.
  rewrite (_reauthenticate_with_run parse_LoginResult _ username password)
    by reflexivity.
  rewrite (_post_final_status urljoin parse_LoginResult fuel "login"
             (login_body username password)
             (AirboltClient.set_credentials username password self) response);
    [|exact Hserver | rewrite H200; discriminate].
  rewrite H200. simpl. rewrite Hparse. repeat split.
Qed.

Lemma login_success_witness :
  match AirboltClient.login Sample.urljoin Sample.parse_LoginResult 1 "user" "secret"
          (AirboltClient.__init__ (Sample.remote_healthy "no-devices")) with
  | Some (r, self') =>
      r = Ok Sample.login_result
      ∧ AirboltClient._username self' = Some "user"
      ∧ AirboltClient._password self' = Some "secret"
      ∧ AirboltClient._login_result self' = Some Sample.login_result
      ∧ AirboltClient.session_headers self'
        = <["Authorization" := "Bearer fresh"]>
            (<["Accept" := "application/json"]> Sample.headers_initial)
      ∧ AirboltClient.trace self'
        = [AirboltClient.Sent (Sample.login_request "user" "secret"
                                 Sample.headers_initial)]
  | None => False
  end.
Proof.
  apply (login_success Sample.urljoin Sample.parse_LoginResult 0 "user" "secret"
           (AirboltClient.__init__ (Sample.remote_healthy "no-devices"))
           (AirboltClient.mkResponse 200 "login-result") Sample.login_result);
    reflexivity.
Defined.

(** X10: [login] stores the credentials it is given before anything else,
    so the client holds them however the login ends, a failure included;
    no call changes the remote end or drops an event of the trace. *)
Theorem login_keeps_credentials
    (urljoin : string -> string -> string)
    (parse_LoginResult : string -> option LoginResult.t) (fuel : nat)
    (username password : string) (self : AirboltClient.t) :
  match AirboltClient.login urljoin parse_LoginResult fuel username password self with
  | Some (_, self') =>
      holds_credentials username password (AirboltClient.server self)
        (AirboltClient.trace self) self'
  | None => True
  end.
Proof.
  rewrite login_run.
  assert (Hlog : ∀ ev s,
             holds_credentials username password (AirboltClient.server self)
               (AirboltClient.trace self) s →
             holds_credentials username password (AirboltClient.server self)
               (AirboltClient.trace self) (AirboltClient.log_event ev s)).
  { intros ev s (Hu & Hp & Hsrv & Hpre). repeat split; try assumption.
    simpl. now apply prefix_app_r. }
  assert (Hlogin : ∀ lr s,
             holds_credentials username password (AirboltClient.server self)
               (AirboltClient.trace self) s →
             holds_credentials username password (AirboltClient.server self)
               (AirboltClient.trace self)
               (AirboltClient.headers_update
                  [("Accept", "application/json");
                   ("Authorization", LoginResult.auth_header lr)]
                  (AirboltClient.set_login_result lr s))).
  { intros lr s (Hu & Hp & Hsrv & Hpre). repeat split; assumption. }
  apply (_reauthenticate_preserves urljoin parse_LoginResult _ Hlog Hlogin fuel
           (AirboltClient.set_credentials username password self)).
  split; [reflexivity|]. split; [reflexivity|]. split; [reflexivity|].
  simpl. reflexivity.
Qed.

(** X11: a new client has the Accept and Content-Type headers of the API
    and no login result; [login], [find_devices], [get_device_history_page]
    and [get_user_info] keep those two headers, and keep the Authorization
    header equal to the auth header of the stored login result, however
    they end. *)
Theorem authorization_follows_login_result
    (urljoin : string -> string -> string)
    (parse_LoginResult : string -> option LoginResult.t)
    (parse_FoundDevices : string -> result (list FoundDevice.t))
    (parse_DeviceHistoryPage : string -> option DeviceHistoryPage.t)
    (parse_UserInfo : string -> option UserInfo.t) (fuel : nat) :
  let good self := authorization_matches self ∧ json_headers self in
  (∀ remote, good (AirboltClient.__init__ remote))
  ∧ (∀ username password,
       preserves good (AirboltClient.login urljoin parse_LoginResult fuel username password))
  ∧ preserves good
      (AirboltClient.find_devices urljoin parse_LoginResult parse_FoundDevices fuel)
  ∧ (∀ device_uuid page page_size,
       preserves good
         (AirboltClient.get_device_history_page urljoin parse_LoginResult
            parse_DeviceHistoryPage fuel device_uuid page page_size))
  ∧ preserves good
      (AirboltClient.get_user_info urljoin parse_LoginResult parse_UserInfo fuel).
Proof.
  intros good.
  assert (Hlog : ∀ ev self, good self → good (AirboltClient.log_event ev self)).
  { intros ev self [Ha Hj]. split; [exact Ha | exact Hj]. }
  assert (Hlogin : ∀ login_result self,
             good self →
             good (AirboltClient.headers_update
                     [("Accept", "application/json");
                      ("Authorization", LoginResult.auth_header login_result)]
                     (AirboltClient.set_login_result login_result self))).
  { intros lr self [Ha [Hacc Hct]]. split.
    - intros lr' [= <-]. simpl. apply lookup_insert_eq.
    - split; simpl.
      + rewrite lookup_insert_ne by discriminate. apply lookup_insert_eq.
      + rewrite !lookup_insert_ne by discriminate. exact Hct. }
  split; [|split; [|split; [|split]]].
  - intros remote. split.
    + intros lr Hlr. discriminate.
    + split; reflexivity.
  - intros username password self Hgood. rewrite login_run.
    apply (_reauthenticate_preserves urljoin parse_LoginResult good Hlog Hlogin fuel
             (AirboltClient.set_credentials username password self)).
    destruct Hgood as [Ha Hj]. split; [exact Ha | exact Hj].
  - apply (find_devices_preserves urljoin parse_LoginResult good Hlog Hlogin).
  - intros device_uuid page page_size.
    apply (get_device_history_page_preserves urljoin parse_LoginResult good Hlog Hlogin).
  - apply (get_user_info_preserves urljoin parse_LoginResult good Hlog Hlogin).
Qed.

(** X12: on a client that never logged in, [find_devices] raises
    AttributeError for the missing login result and a re-authentication
    raises it for the missing username, both without sending anything; a
    fetch answered 401 sleeps and then ends in that AttributeError rather
    than in an HTTP error. *)
Theorem calls_before_login
    (urljoin : string -> string -> string)
    (parse_LoginResult : string -> option LoginResult.t)
    (parse_FoundDevices : string -> result (list FoundDevice.t))
    (parse_UserInfo : string -> option UserInfo.t) (fuel : nat)
    (remote : list AirboltClient.Event -> AirboltClient.Request -> AirboltClient.Reply) :
  let fresh := AirboltClient.__init__ remote in
  AirboltClient.find_devices urljoin parse_LoginResult parse_FoundDevices fuel fresh
  = Some (Err (AttributeError "_login_result"), fresh)
  ∧ AirboltClient._reauthenticate urljoin parse_LoginResult fuel fresh
    = Some (Err (AttributeError "_username"), fresh)
  ∧ (∀ response,
       remote [] (client_request urljoin fresh AirboltClient.GET "users/me" [])
       = AirboltClient.Responds response →
       AirboltClient.status response = 401 →
       AirboltClient.get_user_info urljoin parse_LoginResult parse_UserInfo (S fuel) fresh
       = Some (Err (AttributeError "_username"),
               AirboltClient.log_event (AirboltClient.Slept 500)
                 (client_after_request urljoin fresh AirboltClient.GET "users/me" []))).
Proof.
  intros fresh. split; [reflexivity|]. split; [reflexivity|].
  intros response Hremote H401.
  unfold AirboltClient.get_user_info. unfold bind at 1.
  rewrite (_get_after_401 urljoin parse_LoginResult fuel "users/me" fresh response
             (client_after_request urljoin fresh AirboltClient.GET "users/me" []));
    [reflexivity | | exact H401].
  rewrite session_request_run.
  change (AirboltClient.server fresh (AirboltClient.trace fresh)) with (remote []).
  unfold client_request in Hremote. now rewrite Hremote.
Qed.

Lemma calls_before_login_witness :
  fst <$> AirboltClient.get_user_info Sample.urljoin Sample.parse_LoginResult (fun _ => None) 1
            (AirboltClient.__init__ (Sample.remote_always 401))
  = Some (Err (AttributeError "_username")).
Proof.
  rewrite (proj2 (proj2 (calls_before_login Sample.urljoin Sample.parse_LoginResult
                           Sample.parse_FoundDevices (fun _ => None) 0
                           (Sample.remote_always 401)))
             (AirboltClient.mkResponse 401 ""));
    reflexivity.
Defined.

(** X13: the typed fetches validate what they receive.  Answered 200 on
    the one GET each of them sends, for the URL that [urljoin] makes of the
    base and its path (the page numbers in decimal, the account id of the
    login result in the device listing), [get_device_history_page] and
    [get_user_info] return the record the body validates to and raise
    ValidationError when it does not, and [find_devices] returns the list
    [parse_raw_as] makes of the body or raises the exception that it
    raises. *)
Theorem fetched_bodies_are_validated
    (urljoin : string -> string -> string)
    (parse_LoginResult : string -> option LoginResult.t)
    (parse_FoundDevices : string -> result (list FoundDevice.t))
    (parse_DeviceHistoryPage : string -> option DeviceHistoryPage.t)
    (parse_UserInfo : string -> option UserInfo.t) (fuel : nat)
    (self : AirboltClient.t) (response : AirboltClient.Response) :
  AirboltClient.status response = 200 →
  (∀ device_uuid page page_size,
     let path := "history/find/device/" +:+ device_uuid +:+ "?page=" +:+ pretty page
                 +:+ "&perPage=" +:+ pretty page_size in
     AirboltClient.server self (AirboltClient.trace self)
       (client_request urljoin self AirboltClient.GET path [])
     = AirboltClient.Responds response →
     AirboltClient.get_device_history_page urljoin parse_LoginResult parse_DeviceHistoryPage
       (S fuel) device_uuid page page_size self
     = Some (match parse_DeviceHistoryPage (AirboltClient.text response) with
             | Some page => Ok page
             | None => Err ValidationError
             end, client_after_request urljoin self AirboltClient.GET path []))
  ∧ (∀ login_result,
       let path := "devices/find/" +:+ LoginResult.id login_result
                   +:+ "?page=0&perPage=999" in
       AirboltClient._login_result self = Some login_result →
       AirboltClient.server self (AirboltClient.trace self)
         (client_request urljoin self AirboltClient.GET path [])
       = AirboltClient.Responds response →
       AirboltClient.find_devices urljoin parse_LoginResult parse_FoundDevices (S fuel) self
       = Some (parse_FoundDevices (AirboltClient.text response),
               client_after_request urljoin self AirboltClient.GET path []))
  ∧ (AirboltClient.server self (AirboltClient.trace self)
       (client_request urljoin self AirboltClient.GET "users/me" [])
     = AirboltClient.Responds response →
     AirboltClient.get_user_info urljoin parse_LoginResult parse_UserInfo (S fuel) self
     = Some (match parse_UserInfo (AirboltClient.text response) with
             | Some user => Ok user
             | None => Err ValidationError
             end, client_after_request urljoin self AirboltClient.GET "users/me" [])).
Proof.
  intros H200.
  assert (Hne : AirboltClient.status response ≠ 401) by (rewrite H200; discriminate).
  split; [|split].
  - intros device_uuid page page_size path Hserver.
    unfold AirboltClient.get_device_history_page. unfold bind at 1.
    fold path.
    rewrite (_get_final_status urljoin parse_LoginResult fuel path self response Hserver Hne).
    rewrite H200. simpl.
    destruct (parse_DeviceHistoryPage (AirboltClient.text response)); reflexivity.
  - intros login_result path Hlr Hserver.
    unfold AirboltClient.find_devices.
    unfold bind at 1. unfold bind at 1. unfold gets. rewrite Hlr. simpl.
    unfold bind at 1. fold path.
    rewrite (_get_final_status urljoin parse_LoginResult fuel path self response Hserver Hne).
    rewrite H200. reflexivity.
  - intros Hserver.
    unfold AirboltClient.get_user_info. unfold bind at 1.
    rewrite (_get_final_status urljoin parse_LoginResult fuel "users/me" self response
               Hserver Hne).
    rewrite H200. simpl.
    destruct (parse_UserInfo (AirboltClient.text response)); reflexivity.
Qed.

Lemma fetched_bodies_are_validated_witness :
  fst <$> AirboltClient.get_device_history_page Sample.urljoin Sample.parse_LoginResult
            Sample.parse_DeviceHistoryPage 1 "abc123" 1 1
            (Sample.client_logged_in (Sample.remote_healthy "no-devices"))
  = Some (Ok (Sample.page true
                [Sample.entry 1684861091000000 Sample.float_10 Sample.float_807_957]))
  ∧ fst <$> AirboltClient.find_devices Sample.urljoin Sample.parse_LoginResult
              Sample.parse_FoundDevices 1
              (Sample.client_logged_in (Sample.remote_always 200))
    = Some (Err JSONDecodeError).
Proof.
  split.
  - rewrite (proj1 (fetched_bodies_are_validated Sample.urljoin Sample.parse_LoginResult
                      Sample.parse_FoundDevices Sample.parse_DeviceHistoryPage
                      (fun _ => None) 0
                      (Sample.client_logged_in (Sample.remote_healthy "no-devices"))
                      (AirboltClient.mkResponse 200 "page-T1") eq_refl)
               "abc123" 1 1); reflexivity.
  - rewrite (proj1 (proj2 (fetched_bodies_are_validated Sample.urljoin Sample.parse_LoginResult
                             Sample.parse_FoundDevices Sample.parse_DeviceHistoryPage
                             (fun _ => None) 0
                             (Sample.client_logged_in (Sample.remote_always 200))
                             (AirboltClient.mkResponse 200 "") eq_refl))
               Sample.login_result); reflexivity.
Defined.

(** ** Hub and coordinator *)

Section RegistryMore.
Implicit Types (st : gmap string Tracker.t * gmap string (gmap string bool)).

(** What the discovery step leaves under the uuid of its device. *)
Lemma discover_pure_at st d :
  fst (discover_pure st d) !! FoundDevice.device_uuid d
  = Some (match fst st !! FoundDevice.device_uuid d with
          | Some tracker => fst (Tracker.update_device tracker d)
          | None => Tracker.__init__ d
          end)
  ∧ snd (discover_pure st d) !! FoundDevice.device_uuid d
    = match fst st !! FoundDevice.device_uuid d with
      | Some tracker =>
          Some (<["device" := snd (Tracker.update_device tracker d)]>
                  (default ∅ (snd st !! FoundDevice.device_uuid d)))
      | None => snd st !! FoundDevice.device_uuid d
      end.
Proof.
  unfold discover_pure.
  destruct (fst st !! FoundDevice.device_uuid d) as [tracker|]; simpl.
  - split; [apply lookup_insert_eq|].
    unfold AirboltCoordinator.record_change. apply lookup_insert_eq.
  - split; [apply lookup_insert_eq | reflexivity].
Qed.

Lemma discovery_absent_registry ds : ∀ st other,
  other ∉ (FoundDevice.device_uuid <$> ds) →
  fst (fold_left discover_pure ds st) !! other = fst st !! other.
Proof.
  induction ds as [|d ds IH]; intros st other Hnot; simpl; [reflexivity|].
  rewrite fmap_cons in Hnot. apply not_elem_of_cons in Hnot as [Hne Hnot].
  rewrite IH by exact Hnot.
  apply discover_pure_other. congruence.
Qed.

(** With distinct uuids in the listing, each listed device is handled by
    its own step alone. *)
Lemma discovery_listed ds : ∀ st d,
  NoDup (FoundDevice.device_uuid <$> ds) →
  d ∈ ds →
  fst (fold_left discover_pure ds st) !! FoundDevice.device_uuid d
  = Some (match fst st !! FoundDevice.device_uuid d with
          | Some tracker => fst (Tracker.update_device tracker d)
          | None => Tracker.__init__ d
          end)
  ∧ snd (fold_left discover_pure ds st) !! FoundDevice.device_uuid d
    = match fst st !! FoundDevice.device_uuid d with
      | Some tracker =>
          Some (<["device" := snd (Tracker.update_device tracker d)]>
                  (default ∅ (snd st !! FoundDevice.device_uuid d)))
      | None => snd st !! FoundDevice.device_uuid d
      end.
Proof.
  induction ds as [|d0 ds IH]; intros st d Hnd Hin; simpl.
  - inversion Hin.
  - rewrite fmap_cons in Hnd. apply NoDup_cons in Hnd as [Hfresh Hnd].
    apply elem_of_cons in Hin as [->|Hin].
    + rewrite discovery_absent_registry, discovery_absent by exact Hfresh.
      apply discover_pure_at.
    + assert (Hne : FoundDevice.device_uuid d0 ≠ FoundDevice.device_uuid d).
      { intros Heq. apply Hfresh. rewrite Heq.
        apply list_elem_of_fmap. eauto. }
      destruct (discover_pure_other st d0 _ Hne) as [Hfst Hsnd].
      destruct (IH (discover_pure st d0) d Hnd Hin) as [H1 H2].
      rewrite H1, H2, Hfst, Hsnd. split; reflexivity.
Qed.

Lemma discover_pure_keyed st d :
  registry_keyed_by_id (fst st) → registry_keyed_by_id (fst (discover_pure st d)).
Proof.
  intros Hkeyed key tracker. unfold discover_pure.
  destruct (fst st !! FoundDevice.device_uuid d) as [known|] eqn:Hknown; simpl;
    (destruct (decide (FoundDevice.device_uuid d = key)) as [<-|Hne];
     [rewrite lookup_insert_eq; intros [= <-]
     |rewrite lookup_insert_ne by exact Hne; apply Hkeyed]).
  - unfold Tracker.id. rewrite update_device_id. apply (Hkeyed _ _ Hknown).
  - now rewrite init_fields.
Qed.

Lemma discovery_keyed ds : ∀ st,
  registry_keyed_by_id (fst st) →
  registry_keyed_by_id (fst (fold_left discover_pure ds st)).
Proof.
  induction ds as [|d ds IH]; intros st Hkeyed; simpl; [exact Hkeyed|].
  apply IH, discover_pure_keyed, Hkeyed.
Qed.

(** The discovery loop changes no stored report. *)
Lemma discover_pure_reports st d key tracker' :
  fst (discover_pure st d) !! key = Some tracker' →
  match fst st !! key with
  | Some tracker => Tracker._last_report tracker' = Tracker._last_report tracker
  | None => Tracker._last_report tracker' = None
  end.
Proof.
  unfold discover_pure.
  destruct (fst st !! FoundDevice.device_uuid d) as [known|] eqn:Hknown; simpl;
    (destruct (decide (FoundDevice.device_uuid d = key)) as [<-|Hne];
     [rewrite lookup_insert_eq; intros [= <-]
     |rewrite lookup_insert_ne by exact Hne; intros ->; reflexivity]).
  - rewrite Hknown. apply update_device_last_report.
  - rewrite Hknown. now rewrite init_fields.
Qed.

Lemma discovery_reports ds : ∀ st key tracker',
  fst (fold_left discover_pure ds st) !! key = Some tracker' →
  match fst st !! key with
  | Some tracker => Tracker._last_report tracker' = Tracker._last_report tracker
  | None => Tracker._last_report tracker' = None
  end.
Proof.
  induction ds as [|d ds IH]; intros st key tracker' Hlook; simpl in Hlook.
  - now rewrite Hlook.
  - specialize (IH _ _ _ Hlook).
    destruct (fst (discover_pure st d) !! key) as [mid|] eqn:Hmid.
    + pose proof (discover_pure_reports st d key mid Hmid) as Hstep.
      destruct (fst st !! key); congruence.
    + assert (Hnone : fst st !! key = None).
      { destruct (fst st !! key) as [t|] eqn:Ht; [|reflexivity].
        assert (Hdom : key ∈ dom (fst (discover_pure st d))).
        { rewrite discover_pure_dom. apply elem_of_union_r.
          apply elem_of_dom. eauto. }
        apply elem_of_dom in Hdom as [x Hx]. congruence. }
      now rewrite Hnone.
Qed.

End RegistryMore.

Section CycleMore.
Context {C : Type} {api : ClientAPI C}.
Implicit Types (hub : Hub.t C) (data : gmap string (gmap string bool)).

(** A cycle whose listing arrived leaves the registry as the discovery loop
    made it, and a mapping it returns is the one of that loop. *)
Lemma cycle_after_listing order contexts hub discovered c' :
  client_find_devices (Hub._client hub) = Some (Ok discovered, c') →
  match AirboltCoordinator._async_update_data order contexts hub with
  | None => True
  | Some (r, hub') =>
      Hub._devices hub'
      = fst (fold_left discover_pure discovered (Hub._devices hub, ∅))
      ∧ match r with
        | Ok data => data = snd (fold_left discover_pure discovered
                                   (Hub._devices hub, ∅))
        | Err _ => True
        end
  end.
Proof.
  intros Hfind.
  unfold AirboltCoordinator._async_update_data, try_except.
  rewrite update_body_run, Hfind. simpl.
  match goal with
  | |- context [for_fold ?ids ?d ?f ?h] =>
      pose proof (refresh_loop_frame ids d h) as Hframe;
      destruct (for_fold ids d f h) as [[[data'|exc] hub']|]; simpl in *; trivial
  end.
  all: try (destruct Hframe as [Hdev Hdata]; split; [exact Hdev | trivial]).
Qed.

(** A cycle whose listing did not arrive leaves the registry alone. *)
Lemma cycle_without_listing order contexts hub :
  match client_find_devices (Hub._client hub) with
  | Some (Ok _, _) => True
  | _ =>
      match AirboltCoordinator._async_update_data order contexts hub with
      | None => True
      | Some (r, hub') =>
          Hub._devices hub' = Hub._devices hub
          ∧ match r with Ok _ => False | Err _ => True end
      end
  end.
Proof.
  unfold AirboltCoordinator._async_update_data, try_except.
  rewrite update_body_run.
  destruct (client_find_devices (Hub._client hub)) as [[[discovered|e] c']|];
    simpl; auto.
Qed.


Lemma start_device_keyed d hub :
  registry_keyed_by_id (Hub._devices hub) →
  match Hub.start_device d hub with
  | None => True
  | Some (_, hub') => registry_keyed_by_id (Hub._devices hub')
  end.
Proof.
  intros Hkeyed.
  assert (Hins : ∀ tracker,
             registry_keyed_by_id
               (<[Tracker.id tracker := tracker]> (Hub._devices hub))).
  { intros tracker key t.
    destruct (decide (Tracker.id tracker = key)) as [<-|Hne].
    - rewrite lookup_insert_eq. now intros [= <-].
    - rewrite lookup_insert_ne by exact Hne. apply Hkeyed. }
  unfold Hub.start_device, bind. rewrite await_client_run.
  destruct (client_get_device_history_page (FoundDevice.device_uuid d) 1 1
              (Hub._client hub)) as [[[page|e] c']|]; simpl; trivial.
  destruct (DeviceHistoryPage.success page); simpl.
  - destruct (DeviceHistoryPage.data page !! 0%nat); simpl; [apply Hins | exact Hkeyed].
  - apply Hins.
Qed.

Lemma start_loop_keyed ds : ∀ hub,
  registry_keyed_by_id (Hub._devices hub) →
  match for_each ds Hub.start_device hub with
  | None => True
  | Some (_, hub') => registry_keyed_by_id (Hub._devices hub')
  end.
Proof.
  unfold for_each.
  induction ds as [|d ds IH]; intros hub Hkeyed; simpl; [exact Hkeyed|].
  unfold bind. pose proof (start_device_keyed d hub Hkeyed) as Hd.
  destruct (Hub.start_device d hub) as [[[[]|e] hub1]|]; trivial.
  apply IH, Hd.
Qed.

End CycleMore.

(** X14: when every Tracker of the registry sits under its own id, it still
    does after a refresh cycle and after [start], however they end; the
    empty registry a hub starts with is such a registry. *)
Theorem registry_stays_keyed_by_id {C : Type} (api : ClientAPI C)
    (order : SetOrder) (contexts : list string) (username password : string) (hub : Hub.t C) :
  registry_keyed_by_id (Hub._devices hub) →
  match AirboltCoordinator._async_update_data order contexts hub with
  | None => True
  | Some (_, hub') => registry_keyed_by_id (Hub._devices hub')
  end
  ∧ match Hub.start username password hub with
    | None => True
    | Some (_, hub') => registry_keyed_by_id (Hub._devices hub')
    end.
Proof.
  intros Hkeyed. split.
  - pose proof (cycle_without_listing order contexts hub) as Hwithout.
    destruct (client_find_devices (Hub._client hub)) as [[[discovered|e] c']|] eqn:Hfind.
    + pose proof (cycle_after_listing order contexts hub discovered c' Hfind) as Hafter.
      destruct (AirboltCoordinator._async_update_data order contexts hub)
        as [[r hub']|]; trivial.
      destruct Hafter as [-> _].
      now apply (discovery_keyed discovered (Hub._devices hub, ∅)).
    + destruct (AirboltCoordinator._async_update_data order contexts hub)
        as [[r hub']|]; trivial.
      destruct Hwithout as [-> _]. exact Hkeyed.
    + destruct (AirboltCoordinator._async_update_data order contexts hub)
        as [[r hub']|]; trivial.
      destruct Hwithout as [-> _]. exact Hkeyed.
  - unfold Hub.start, bind.
    pose proof (_login_registry username password hub) as Hl.
    destruct (Hub._login username password hub) as [[[[]|e] hub1]|]; trivial;
      [|now rewrite Hl].
    rewrite await_client_run.
    destruct (client_find_devices (Hub._client hub1)) as [[[ds|e] c']|];
      trivial; [|simpl; now rewrite Hl].
    apply start_loop_keyed. simpl. now rewrite Hl.
Qed.

Lemma registry_stays_keyed_by_id_witness :
  match Hub.start (api := Sample.api 3) "user" "secret"
          (Hub.mk (AirboltClient.__init__ (Sample.remote_healthy "one-device"))
                  None ∅) with
  | None => True
  | Some (_, hub') => registry_keyed_by_id (Hub._devices hub')
  end.
Proof.
  apply (registry_stays_keyed_by_id (Sample.api 3) Sample.set_order [] "user" "secret"
           (Hub.mk (AirboltClient.__init__ (Sample.remote_healthy "one-device"))
                   None ∅)).
  intros key tracker Hlook. simpl in Hlook.
  rewrite lookup_empty in Hlook. discriminate.
Defined.



(** X16: what a cycle makes of a listing with distinct uuids.  A listed
    device that was registered has its Tracker updated by [update_device];
    one that was not has a fresh Tracker; Trackers that are not listed are
    left as they were.  A mapping that is returned holds, for each listed
    device that was registered, exactly the flag "device" that
    [update_device] returned, and nothing for any other id. *)
Theorem cycle_publishes_device_changes {C : Type} (api : ClientAPI C)
    (order : SetOrder) (contexts : list string) (hub : Hub.t C)
    (discovered : list FoundDevice.t) (c' : C) :
  client_find_devices (Hub._client hub) = Some (Ok discovered, c') →
  NoDup (FoundDevice.device_uuid <$> discovered) →
  match AirboltCoordinator._async_update_data order contexts hub with
  | None => True
  | Some (r, hub') =>
      (∀ d, d ∈ discovered →
         Hub._devices hub' !! FoundDevice.device_uuid d
         = Some (match Hub._devices hub !! FoundDevice.device_uuid d with
                 | Some tracker => fst (Tracker.update_device tracker d)
                 | None => Tracker.__init__ d
                 end))
      ∧ (∀ other, other ∉ (FoundDevice.device_uuid <$> discovered) →
           Hub._devices hub' !! other = Hub._devices hub !! other)
      ∧ match r with
        | Err _ => True
        | Ok data =>
            (∀ d, d ∈ discovered →
               data !! FoundDevice.device_uuid d
               = (λ tracker, {["device" := snd (Tracker.update_device tracker d)]})
                   <$> Hub._devices hub !! FoundDevice.device_uuid d)
            ∧ (∀ other, other ∉ (FoundDevice.device_uuid <$> discovered) →
                 data !! other = None)
        end
  end.
Proof.
  intros Hfind Hnd.
  pose proof (cycle_after_listing order contexts hub discovered c' Hfind) as Hafter.
  destruct (AirboltCoordinator._async_update_data order contexts hub) as [[r hub']|];
    trivial.
  destruct Hafter as [-> Hdata].
  split; [|split].
  - intros d Hin.
    apply (discovery_listed discovered (Hub._devices hub, ∅) d Hnd Hin).
  - intros other Hnot.
    apply (discovery_absent_registry discovered (Hub._devices hub, ∅) other Hnot).
  - destruct r as [data|]; trivial. subst data. split.
    + intros d Hin.
      destruct (discovery_listed discovered (Hub._devices hub, ∅) d Hnd Hin)
        as [_ ->]. simpl.
      destruct (Hub._devices hub !! FoundDevice.device_uuid d); simpl.
      * rewrite lookup_empty. reflexivity.
      * apply lookup_empty.
    + intros other Hnot.
      rewrite (discovery_absent discovered (Hub._devices hub, ∅) other Hnot).
      apply lookup_empty.
Qed.

Lemma cycle_publishes_device_changes_witness :
  match AirboltCoordinator._async_update_data (api := Sample.api 3) Sample.set_order []
          (Sample.hub (Sample.client_logged_in (Sample.remote_healthy "one-device"))
             {["abc123" := Tracker.__init__ (Sample.device "abc123" "Old name")]})
  with
  | Some (Ok data, hub') =>
      data !! "abc123" = Some {["device" := true]}
      ∧ Hub._devices hub' !! "abc123" = Some Sample.tracker_abc123
  | _ => False
  end.
Proof.
  pose proof (cycle_publishes_device_changes (Sample.api 3) Sample.set_order []
                (Sample.hub
                   (Sample.client_logged_in (Sample.remote_healthy "one-device"))
                   {["abc123" := Tracker.__init__ (Sample.device "abc123" "Old name")]})
                [Sample.device "abc123" "Keys"]
                (client_after_request Sample.urljoin
                   (Sample.client_logged_in (Sample.remote_healthy "one-device"))
                   AirboltClient.GET
                   "devices/find/646805c7b91db16459331694?page=0&perPage=999" [])
                eq_refl) as H.
  assert (Hnd : NoDup (FoundDevice.device_uuid <$> [Sample.device "abc123" "Keys"])).
  { simpl. apply NoDup_cons. split; [|apply NoDup_nil_2].
    intros Hin. inversion Hin. }
  specialize (H Hnd).
  destruct (AirboltCoordinator._async_update_data _ _) as [[[data|e] hub']|] eqn:Hrun;
    [|vm_compute in Hrun; discriminate|vm_compute in Hrun; discriminate].
  destruct H as (Hlisted & _ & Hdata & _).
  assert (Hin : Sample.device "abc123" "Keys" ∈ [Sample.device "abc123" "Keys"])
    by (apply list_elem_of_In; simpl; auto).
  split.
  - etransitivity; [exact (Hdata _ Hin) | reflexivity].
  - etransitivity; [exact (Hlisted _ Hin) | reflexivity].
Defined.

(** X17: a refresh cycle changes the stored report of no Tracker, whatever
    its outcome, and a mapping it returns has no entry under "location". *)
Theorem cycle_never_touches_reports {C : Type} (api : ClientAPI C)
    (order : SetOrder) (contexts : list string) (hub : Hub.t C) :
  match AirboltCoordinator._async_update_data order contexts hub with
  | None => True
  | Some (r, hub') =>
      (∀ key tracker',
         Hub._devices hub' !! key = Some tracker' →
         Tracker._last_report tracker'
         = (Hub._devices hub !! key) ≫= Tracker._last_report)
      ∧ match r with
        | Ok data => only_device_keys data
        | Err _ => True
        end
  end.
Proof.
  pose proof (published_mapping_has_no_location order contexts hub) as Hkeys.
  pose proof (cycle_without_listing order contexts hub) as Hwithout.
  destruct (client_find_devices (Hub._client hub)) as [[[discovered|e] c']|] eqn:Hfind.
  - pose proof (cycle_after_listing order contexts hub discovered c' Hfind) as Hafter.
    destruct (AirboltCoordinator._async_update_data order contexts hub)
      as [[r hub']|]; trivial.
    destruct Hafter as [-> _]. split.
    + intros key tracker' Hlook.
      pose proof (discovery_reports discovered (Hub._devices hub, ∅) key tracker'
                    Hlook) as Hrep. simpl in Hrep.
      destruct (Hub._devices hub !! key); simpl; exact Hrep.
    + destruct r; [exact Hkeys | trivial].
  - destruct (AirboltCoordinator._async_update_data order contexts hub)
      as [[r hub']|]; trivial.
    destruct Hwithout as [-> Hr]. split.
    + intros key tracker' ->. reflexivity.
    + destruct r; [contradiction | trivial].
  - destruct (AirboltCoordinator._async_update_data order contexts hub)
      as [[r hub']|]; trivial.
    destruct Hwithout as [-> Hr]. split.
    + intros key tracker' ->. reflexivity.
    + destruct r; [contradiction | trivial].
Qed.

Section StartMore.
Context {C : Type} {api : ClientAPI C}.
Implicit Types (hub : Hub.t C).

(** What [start] does with one discovered device, given its page. *)
Lemma start_device_run d hub page c' :
  client_get_device_history_page (FoundDevice.device_uuid d) 1 1 (Hub._client hub)
  = Some (Ok page, c') →
  Hub.start_device d hub
  = if DeviceHistoryPage.success page
    then match DeviceHistoryPage.data page with
         | [] => Some (Err IndexError, Hub.set_client c' hub)
         | entry :: _ =>
             Some (Ok tt,
                   Hub.set_device (FoundDevice.device_uuid d)
                     {| Tracker._id := FoundDevice.device_uuid d;
                        Tracker._name := FoundDevice.name d;
                        Tracker._model := FoundDevice.device_type d;
                        Tracker._last_report := Some entry |}
                     (Hub.set_client c' hub))
         end
    else Some (Ok tt,
               Hub.set_device (FoundDevice.device_uuid d)
                 {| Tracker._id := FoundDevice.device_uuid d;
                    Tracker._name := FoundDevice.name d;
                    Tracker._model := FoundDevice.device_type d;
                    Tracker._last_report := None |}
                 (Hub.set_client c' hub)).
Proof.
  intros Hpage. unfold Hub.start_device, bind. rewrite await_client_run, Hpage.
  rewrite init_fields.
  destruct (DeviceHistoryPage.success page); simpl; [|reflexivity].
  destruct (DeviceHistoryPage.data page) as [|entry rest]; reflexivity.
Qed.

Lemma start_device_dom d hub :
  match Hub.start_device d hub with
  | None => True
  | Some (r, hub') =>
      Hub._user hub' = Hub._user hub
      ∧ match r with
        | Ok _ => dom (Hub._devices hub')
                  = {[FoundDevice.device_uuid d]} ∪ dom (Hub._devices hub)
        | Err _ => Hub._devices hub' = Hub._devices hub
        end
  end.
Proof.
  destruct (client_get_device_history_page (FoundDevice.device_uuid d) 1 1
              (Hub._client hub)) as [[[page|e] c']|] eqn:Hpage.
  - rewrite (start_device_run d hub page c' Hpage).
    destruct (DeviceHistoryPage.success page).
    + destruct (DeviceHistoryPage.data page); simpl; split; trivial.
      apply dom_insert_L.
    + simpl. split; trivial. apply dom_insert_L.
  - unfold Hub.start_device, bind. rewrite await_client_run, Hpage. simpl. auto.
  - unfold Hub.start_device, bind. now rewrite await_client_run, Hpage.
Qed.

Lemma start_loop_dom ds : ∀ hub,
  match for_each ds Hub.start_device hub with
  | None => True
  | Some (r, hub') =>
      Hub._user hub' = Hub._user hub
      ∧ match r with
        | Ok _ => dom (Hub._devices hub')
                  = list_to_set (FoundDevice.device_uuid <$> ds)
                    ∪ dom (Hub._devices hub)
        | Err _ => True
        end
  end.
Proof.
  unfold for_each.
  induction ds as [|d ds IH]; intros hub; simpl.
  - split; [reflexivity|]. now rewrite (left_id_L ∅ (∪)).
  - unfold bind. pose proof (start_device_dom d hub) as Hd.
    destruct (Hub.start_device d hub) as [[[[]|e] hub1]|]; trivial.
    + destruct Hd as [Hu Hdom]. specialize (IH hub1).
      destruct (for_fold ds () _ hub1) as [[r hub2]|]; trivial.
      destruct IH as [Hu2 Hdom2]. split; [congruence|].
      destruct r; trivial. rewrite Hdom2, Hdom.
      now rewrite (assoc_L (∪)),
        (comm_L (∪) (list_to_set (FoundDevice.device_uuid <$> ds))
           {[FoundDevice.device_uuid d]}).
    + destruct Hd as [Hu _]. split; trivial.
Qed.

End StartMore.

(** X18: [start] seeds one discovered device from its page: when the page
    does not report success the device is registered without a report, when
    it does the device is registered with the first entry as its report,
    and a page that reports success with no entry raises IndexError and
    registers nothing.  The Tracker stored is a new one, also under a key
    that was taken. *)
Theorem start_seeds_the_device {C : Type} (api : ClientAPI C)
    (discovered_device : FoundDevice.t) (hub : Hub.t C)
    (page : DeviceHistoryPage.t) (c' : C) :
  client_get_device_history_page (FoundDevice.device_uuid discovered_device) 1 1
    (Hub._client hub)
  = Some (Ok page, c') →
  match Hub.start_device discovered_device hub with
  | Some (Ok _, hub') =>
      Hub._devices hub'
      = <[FoundDevice.device_uuid discovered_device :=
            {| Tracker._id := FoundDevice.device_uuid discovered_device;
               Tracker._name := FoundDevice.name discovered_device;
               Tracker._model := FoundDevice.device_type discovered_device;
               Tracker._last_report :=
                 if DeviceHistoryPage.success page
                 then head (DeviceHistoryPage.data page)
                 else None |}]> (Hub._devices hub)
      ∧ (DeviceHistoryPage.success page = true →
         DeviceHistoryPage.data page ≠ [])
  | Some (Err e, hub') =>
      e = IndexError
      ∧ DeviceHistoryPage.success page = true
      ∧ DeviceHistoryPage.data page = []
      ∧ Hub._devices hub' = Hub._devices hub
  | None => False
  end.
Proof.
  intros Hpage. rewrite (start_device_run discovered_device hub page c' Hpage).
  destruct (DeviceHistoryPage.success page).
  - destruct (DeviceHistoryPage.data page) as [|entry rest]; simpl.
    + repeat split.
    + split; [reflexivity | discriminate].
  - simpl. split; [reflexivity | discriminate].
Qed.

Lemma start_seeds_the_device_witness :
  match Hub.start_device (api := Sample.api 3) (Sample.device "abc123" "Keys")
          (Sample.hub (Sample.client_logged_in (Sample.remote_healthy "one-device")) ∅)
  with
  | Some (Ok _, hub') =>
      (Tracker.latitude <$> Hub._devices hub' !! "abc123") = Some (Ok Sample.float_10)
  | _ => False
  end.
Proof.
  pose proof (start_seeds_the_device (Sample.api 3) (Sample.device "abc123" "Keys")
                (Sample.hub
                   (Sample.client_logged_in (Sample.remote_healthy "one-device")) ∅)
                (Sample.page true
                   [Sample.entry 1684861091000000 Sample.float_10
                      Sample.float_807_957])
                (client_after_request Sample.urljoin
                   (Sample.client_logged_in (Sample.remote_healthy "one-device"))
                   AirboltClient.GET
                   "history/find/device/abc123?page=1&perPage=1" [])
                eq_refl) as H.
  destruct (Hub.start_device _ _) as [[[[]|e] hub']|] eqn:Hrun;
    [|vm_compute in Hrun; discriminate|vm_compute in Hrun; discriminate].
  destruct H as [-> _]. reflexivity.
Defined.

(** X19: [start] stops at a failed login with that login's exception, the
    registry and the user untouched; when the login and the listing
    succeed it stores the user, and if it then returns, the keys of the
    registry are the old ones and the uuids of the listing. *)
Theorem start_registers_the_listing {C : Type} (api : ClientAPI C)
    (username password : string) (hub : Hub.t C) :
  match Hub._login username password hub with
  | None => Hub.start username password hub = None
  | Some (Err e, hub1) =>
      Hub.start username password hub = Some (Err e, hub1)
      ∧ Hub._devices hub1 = Hub._devices hub
      ∧ Hub._user hub1 = Hub._user hub
  | Some (Ok _, hub1) =>
      match client_find_devices (Hub._client hub1) with
      | Some (Ok discovered, _) =>
          match Hub.start username password hub with
          | None => True
          | Some (r, hub') =>
              Hub._user hub' = Hub._user hub1
              ∧ is_Some (Hub._user hub')
              ∧ match r with
                | Ok _ =>
                    dom (Hub._devices hub')
                    = list_to_set (FoundDevice.device_uuid <$> discovered)
                      ∪ dom (Hub._devices hub)
                | Err _ => True
                end
          end
      | _ => True
      end
  end.
Proof.
  unfold Hub.start, bind.
  pose proof (_login_registry username password hub) as Hreg.
  rewrite _login_maps_only_HTTPClientError in *.
  destruct (client_login username password (Hub._client hub))
    as [[[user|e] c1]|]; [| |reflexivity].
  - rewrite await_client_run. simpl.
    destruct (client_find_devices c1) as [[[discovered|e] c2]|]; trivial.
    pose proof (start_loop_dom discovered
                  (Hub.set_client c2 (Hub.set_user user (Hub.set_client c1 hub))))
      as Hloop.
    destruct (for_each discovered Hub.start_device _) as [[r hub']|]; trivial.
    destruct Hloop as [Hu Hdom]. simpl in Hu, Hdom.
    split; [exact Hu|]. split; [rewrite Hu; eauto|].
    destruct r; trivial.
  - destruct e; simpl; repeat split.
Qed.

(** ** device_tracker.py *)

Lemma any_value_true (changes : gmap string bool) :
  existsb (fun updated : bool => updated) (snd <$> map_to_list changes) = true
  ↔ ∃ key, changes !! key = Some true.
Proof.
  rewrite existsb_exists. split.
  - intros (b & Hin & ->). apply list_elem_of_In, list_elem_of_fmap in Hin.
    destruct Hin as ([key b] & Hb & Hin). simpl in Hb. subst b.
    exists key. now apply elem_of_map_to_list.
  - intros (key & Hkey). exists true. split; [|reflexivity].
    apply list_elem_of_In, list_elem_of_fmap. exists (key, true).
    split; [reflexivity|]. now apply elem_of_map_to_list.
Qed.

(** X20: on a coordinator update the entity writes its state exactly when
    the mapping holds a true flag for its tracker id; an id the mapping
    lacks writes nothing and leaves an empty entry behind in the mapping,
    and no other entry changes. *)
Theorem entity_writes_state_on_a_true_flag
    (self : LocationTracker.t) (data : gmap string (gmap string bool)) :
  let out := LocationTracker._handle_coordinator_update self data in
  (snd out = true
   ↔ ∃ changes key,
       data !! LocationTracker.unique_id self = Some changes
       ∧ changes !! key = Some true)
  ∧ fst out !! LocationTracker.unique_id self
    = Some (default ∅ (data !! LocationTracker.unique_id self))
  ∧ (∀ other, other ≠ LocationTracker.unique_id self →
       fst out !! other = data !! other).
Proof.
  intros out. subst out.
  unfold LocationTracker._handle_coordinator_update, LocationTracker.unique_id.
  simpl. split; [|split].
  - rewrite any_value_true.
    destruct (data !! Tracker.id (LocationTracker._tracker self)) as [changes|];
      simpl.
    + split.
      * intros (key & Hkey). eauto.
      * intros (changes' & key & [= <-] & Hkey). eauto.
    + split.
      * intros (key & Hkey). rewrite lookup_empty in Hkey. discriminate.
      * intros (changes' & key & Hnone & _). discriminate.
  - destruct (data !! Tracker.id (LocationTracker._tracker self)) as [changes|] eqn:Hd;
      simpl; [exact Hd | apply lookup_insert_eq].
  - intros other Hne.
    destruct (data !! Tracker.id (LocationTracker._tracker self)); [reflexivity|].
    apply lookup_insert_ne. congruence.
Qed.

Lemma entity_writes_state_on_a_true_flag_witness :
  snd (LocationTracker._handle_coordinator_update
         (LocationTracker.__init__ Sample.tracker_abc123)
         {["abc123" := {["device" := true]}]}) = true.
Proof.
  apply (entity_writes_state_on_a_true_flag
           (LocationTracker.__init__ Sample.tracker_abc123)
           {["abc123" := {["device" := true]}]}).
  exists {["device" := true]}, "device". split; reflexivity.
Defined.

(** X21: setting up the platform hands over no entity list for an empty
    registry, and otherwise one entity per Tracker of the registry, each
    subscribing with its Tracker's id; when every Tracker sits under its
    own id, the ids the entities listen to are the keys of the registry. *)
Theorem setup_creates_one_entity_per_tracker (devices : gmap string Tracker.t) :
  match LocationTracker.async_setup_entry devices with
  | None => devices = ∅
  | Some entities =>
      devices ≠ ∅
      ∧ length entities = size devices
      ∧ (∀ entity, entity ∈ entities →
           LocationTracker.context entity
           = Tracker.id (LocationTracker._tracker entity)
           ∧ ∃ key, devices !! key = Some (LocationTracker._tracker entity))
      ∧ (∀ key tracker, devices !! key = Some tracker →
           LocationTracker.__init__ tracker ∈ entities)
      ∧ (registry_keyed_by_id devices →
         list_to_set (LocationTracker.context <$> entities) = dom devices)
  end.
Proof.
  unfold LocationTracker.async_setup_entry.
  assert (Hmem : ∀ entity,
             entity ∈ ((λ kv, LocationTracker.__init__ kv.2) <$> map_to_list devices)
             ↔ ∃ key tracker, devices !! key = Some tracker
                              ∧ entity = LocationTracker.__init__ tracker).
  { intros entity. rewrite list_elem_of_fmap. split.
    - intros ([key tracker] & -> & Hin). apply elem_of_map_to_list in Hin. eauto.
    - intros (key & tracker & Hlook & ->). exists (key, tracker).
      split; [reflexivity | now apply elem_of_map_to_list]. }
  destruct ((λ kv, LocationTracker.__init__ kv.2) <$> map_to_list devices)
    as [|entity entities] eqn:Hlist.
  - apply fmap_nil_inv in Hlist. now apply map_to_list_empty_iff.
  - split; [|split; [|split; [|split]]].
    + intros ->. rewrite map_to_list_empty in Hlist. discriminate.
    + rewrite <- Hlist, length_fmap. apply length_map_to_list.
    + intros e He. apply Hmem in He as (key & tracker & Hlook & ->).
      split; [reflexivity | eauto].
    + intros key tracker Hlook. apply Hmem. eauto.
    + intros Hkeyed. apply set_eq. intros key.
      rewrite elem_of_list_to_set, list_elem_of_fmap, elem_of_dom. split.
      * intros (e & -> & He). apply Hmem in He as (k & tracker & Hlook & ->).
        simpl. rewrite (Hkeyed _ _ Hlook). eauto.
      * intros [tracker Hlook]. exists (LocationTracker.__init__ tracker).
        split; [simpl; now rewrite (Hkeyed _ _ Hlook) | apply Hmem; eauto].
Qed.

Lemma setup_creates_one_entity_per_tracker_witness :
  match LocationTracker.async_setup_entry {["abc123" := Sample.tracker_abc123]} with
  | None => False
  | Some entities =>
      list_to_set (LocationTracker.context <$> entities)
      = dom ({["abc123" := Sample.tracker_abc123]} : gmap string Tracker.t)
  end.
Proof.
  pose proof (setup_creates_one_entity_per_tracker
                {["abc123" := Sample.tracker_abc123]}) as H.
  destruct (LocationTracker.async_setup_entry _) as [entities|] eqn:Hrun;
    [|vm_compute in Hrun; discriminate].
  destruct H as (_ & _ & _ & _ & Hkeys). apply Hkeys.
  intros key tracker Hlook.
  apply lookup_singleton_Some in Hlook as [<- <-]. reflexivity.
Defined.

Lemma update_device_changed (self : Tracker.t) (d : FoundDevice.t) :
  snd (Tracker.update_device self d) = true
  ↔ Tracker._name self ≠ FoundDevice.name d
    ∨ Tracker._model self ≠ FoundDevice.device_type d.
Proof.
  unfold Tracker.update_device.
  destruct (bool_decide_reflect (Tracker._name self = FoundDevice.name d));
    destruct (bool_decide_reflect (Tracker._model self = FoundDevice.device_type d));
    simpl; split; auto; try discriminate.
  intros [?|?]; contradiction.
Qed.

(** X22: after a cycle that returns, over a listing with distinct uuids,
    the entity of a registered Tracker writes its state exactly when the
    listing holds its device with another name or type than the Tracker
    had; a new report never makes it write. *)
Theorem entity_writes_state_when_its_device_changed
    {C : Type} (api : ClientAPI C) (order : SetOrder) (contexts : list string) (hub : Hub.t C)
    (discovered : list FoundDevice.t) (c' : C) (tracker : Tracker.t) :
  client_find_devices (Hub._client hub) = Some (Ok discovered, c') →
  NoDup (FoundDevice.device_uuid <$> discovered) →
  Hub._devices hub !! Tracker.id tracker = Some tracker →
  match AirboltCoordinator._async_update_data order contexts hub with
  | Some (Ok data, _) =>
      snd (LocationTracker._handle_coordinator_update
             (LocationTracker.__init__ tracker) data) = true
      ↔ ∃ d, d ∈ discovered
             ∧ FoundDevice.device_uuid d = Tracker.id tracker
             ∧ (Tracker.name tracker ≠ FoundDevice.name d
                ∨ Tracker._model tracker ≠ FoundDevice.device_type d)
  | _ => True
  end.
Proof.
  intros Hfind Hnd Hreg.
  pose proof (cycle_after_listing order contexts hub discovered c' Hfind) as Hafter.
  destruct (AirboltCoordinator._async_update_data order contexts hub)
    as [[[data|e] hub']|]; trivial.
  destruct Hafter as [_ ->].
  unfold LocationTracker._handle_coordinator_update. simpl.
  rewrite any_value_true.
  assert (Hlisted : ∀ d, d ∈ discovered →
             FoundDevice.device_uuid d = Tracker.id tracker →
             snd (fold_left discover_pure discovered (Hub._devices hub, ∅))
               !! Tracker.id tracker
             = Some {["device" := snd (Tracker.update_device tracker d)]}).
  { intros d Hin Huuid.
    destruct (discovery_listed discovered (Hub._devices hub, ∅) d Hnd Hin)
      as [_ Hsnd].
    rewrite Huuid in Hsnd. rewrite Hsnd. simpl. rewrite Hreg.
    now rewrite lookup_empty. }
  split.
  - intros (key & Hkey).
    destruct (decide (Tracker.id tracker ∈ (FoundDevice.device_uuid <$> discovered)))
      as [Hin|Hnot].
    + apply list_elem_of_fmap in Hin as (d & Huuid & Hin).
      rewrite (Hlisted d Hin (eq_sym Huuid)) in Hkey. simpl in Hkey.
      exists d. split; [exact Hin|]. split; [now symmetry|].
      apply update_device_changed.
      apply lookup_singleton_Some in Hkey as [_ Hb]. exact Hb.
    + rewrite (discovery_absent discovered (Hub._devices hub, ∅) _ Hnot) in Hkey.
      simpl in Hkey. rewrite lookup_empty in Hkey. simpl in Hkey.
      rewrite lookup_empty in Hkey. discriminate.
  - intros (d & Hin & Huuid & Hchanged).
    rewrite (Hlisted d Hin Huuid). simpl. exists "device".
    rewrite lookup_singleton_eq. f_equal. now apply update_device_changed.
Qed.

Lemma entity_writes_state_when_its_device_changed_witness :
  match AirboltCoordinator._async_update_data (api := Sample.api 3) Sample.set_order []
          (Sample.hub (Sample.client_logged_in (Sample.remote_healthy "one-device"))
             {["abc123" := Tracker.__init__ (Sample.device "abc123" "Old name")]})
  with
  | Some (Ok data, _) =>
      snd (LocationTracker._handle_coordinator_update
             (LocationTracker.__init__
                (Tracker.__init__ (Sample.device "abc123" "Old name"))) data)
      = true
  | _ => False
  end.
Proof.
  pose proof (entity_writes_state_when_its_device_changed (Sample.api 3) Sample.set_order []
                (Sample.hub
                   (Sample.client_logged_in (Sample.remote_healthy "one-device"))
                   {["abc123" := Tracker.__init__ (Sample.device "abc123" "Old name")]})
                [Sample.device "abc123" "Keys"]
                (client_after_request Sample.urljoin
                   (Sample.client_logged_in (Sample.remote_healthy "one-device"))
                   AirboltClient.GET
                   "devices/find/646805c7b91db16459331694?page=0&perPage=999" [])
                (Tracker.__init__ (Sample.device "abc123" "Old name"))
                eq_refl) as H.
  assert (Hnd : NoDup (FoundDevice.device_uuid <$> [Sample.device "abc123" "Keys"])).
  { simpl. apply NoDup_cons. split; [|apply NoDup_nil_2].
    intros Hin. inversion Hin. }
  specialize (H Hnd eq_refl).
  destruct (AirboltCoordinator._async_update_data _ _) as [[[data|e] hub']|] eqn:Hrun;
    [|vm_compute in Hrun; discriminate|vm_compute in Hrun; discriminate].
  apply H. exists (Sample.device "abc123" "Keys").
  split; [apply list_elem_of_In; simpl; auto|].
  split; [reflexivity|]. left. discriminate.
Defined.

(** ** Hub: identity *)

(** X23: [hub_id] and [name] raise AttributeError on a hub that never
    logged in; after a login that succeeds they are the id and
    "name (username)" of the login result the client returned, and after
    one that fails they are what they were. *)
Theorem hub_identity_follows_login {C : Type} (api : ClientAPI C)
    (username password : string) (hub : Hub.t C) :
  (Hub._user hub = None →
   Hub.hub_id hub = Err (AttributeError "_user")
   ∧ Hub.name hub = Err (AttributeError "_user"))
  ∧ match client_login username password (Hub._client hub) with
    | None => Hub.verify_credentials username password hub = None
    | Some (Ok user, _) =>
        match Hub.verify_credentials username password hub with
        | Some (r, hub') =>
            r = Ok tt
            ∧ Hub.hub_id hub' = Ok (LoginResult.id user)
            ∧ Hub.name hub'
              = Ok (LoginResult.name user +:+ " (" +:+ LoginResult.username user
                    +:+ ")")
        | None => False
        end
    | Some (Err e, _) =>
        match Hub.verify_credentials username password hub with
        | Some (r, hub') =>
            (∃ e', r = Err e')
            ∧ Hub.hub_id hub' = Hub.hub_id hub
            ∧ Hub.name hub' = Hub.name hub
        | None => False
        end
    end.
Proof.
  split.
  - intros Hnone. unfold Hub.hub_id, Hub.name. now rewrite Hnone.
  - unfold Hub.verify_credentials. rewrite _login_maps_only_HTTPClientError.
    destruct (client_login username password (Hub._client hub))
      as [[[user|e] c1]|]; [| |reflexivity].
    + repeat split.
    + destruct e; simpl; repeat split; eauto.
Qed.

Lemma hub_identity_follows_login_witness :
  Hub.hub_id (Hub.mk (AirboltClient.__init__ (Sample.remote_always 403)) None ∅)
  = Err (AttributeError "_user").
Proof.
  exact (proj1 (proj1 (hub_identity_follows_login (Sample.api 3) "user" "secret"
                         (Hub.mk (AirboltClient.__init__ (Sample.remote_always 403))
                                 None ∅))
                  eq_refl)).
Defined.
